(** * dpsutil.media.image: a shallow embedding and its checked properties

    The module [src/dpsutil/media/image.py] is a thin adapter over two
    native libraries (OpenCV and TurboJPEG).  The adapter logic
    (argument normalisation, guards, dispatch, slicing) is embedded here
    as executable definitions; the native libraries appear as an interface
    ([Backend]) whose laws are the shape contracts documented by OpenCV,
    together with one executable instance. *)

From Stdlib Require Import ZArith QArith Qround Lia.
From Stdlib Require Import PrimFloat FloatOps SpecFloat.
From Stdlib Require Import Ascii String.
From Stdlib.Strings Require Import Byte.
From stdpp Require Import base option list strings gmap.

Local Close Scope Q_scope.
Local Open Scope Z_scope.

(** ** Python results: a value or a raised exception *)

Inductive exn :=
| AssertionError
| TypeError
| ValueError
| ZeroDivisionError
| OverflowError
| FileExistsError
| FileNotFoundError
| IsADirectoryError
| PermissionError
| BackendError.

Inductive py (A : Type) :=
| Ok (a : A)
| Raise (e : exn).
Arguments Ok {A} a.
Arguments Raise {A} e.

#[global] Instance py_ret : MRet py := fun _ a => Ok a.
#[global] Instance py_bind : MBind py := fun _ _ f m =>
  match m with
  | Ok a => f a
  | Raise e => Raise e
  end.

(** [assert c] *)
Definition py_assert (c : bool) : py unit :=
  if c then Ok tt else Raise AssertionError.

(** ** Python numbers used as box coordinates

    A box component is a Python [int] or a finite [float]; both are exact
    rationals and [max], [min], [round] act exactly on them, so they are
    modelled in [Q]. *)

Module PyNum.

(** [max(a, b)]: the first argument unless the second is strictly larger. *)
Definition py_max (a b : Q) : Q := if Qle_bool b a then a else b.

(** [min(a, b)]: the first argument unless the second is strictly smaller. *)
Definition py_min (a b : Q) : Q := if Qle_bool a b then a else b.

(** [round(q)] with one argument: nearest integer, ties to the even one. *)
Definition py_round (q : Q) : Z :=
  let f := Qfloor q in
  match Qcompare (q - inject_Z f) (1 # 2) with
  | Lt => f
  | Gt => f + 1
  | Eq => if Z.even f then f else f + 1
  end.

(** truth value of a number: non-zero *)
Definition py_bool (q : Q) : bool := negb (Qeq_bool q 0).

End PyNum.
Import PyNum.

(** ** Sequence slicing [l[start:stop]] with Python's index normalisation *)

Definition slice_index (len i : Z) : Z :=
  if i <? 0 then Z.max (i + len) 0 else Z.min i len.

Definition slice_bounds (len start stop : Z) : nat * nat :=
  let a := slice_index len start in
  let b := slice_index len stop in
  (Z.to_nat a, Z.to_nat (b - a)).

Definition py_slice {A} (l : list A) (start stop : Z) : list A :=
  let '(a, n) := slice_bounds (Z.of_nat (length l)) start stop in
  take n (drop a l).

(** ** Pixel buffers: three-dimensional arrays (height, width, channel) *)

Definition pixel := list Z.

Record ndarray := NDArray {
  rows : list (list pixel);
  width : nat;
  channels : nat
}.

Definition shape (img : ndarray) : Z * Z * Z :=
  (Z.of_nat (length (rows img)), Z.of_nat (width img), Z.of_nat (channels img)).

Definition height (img : ndarray) : Z := Z.of_nat (length (rows img)).

(** Every row has [width] pixels and every pixel [channels] values. *)
Definition wf_ndarray (img : ndarray) : Prop :=
  Forall (fun r => length r = width img /\
                   Forall (fun p => length p = channels img) r) (rows img).

(** [img[r0:r1, c0:c1]] *)
Definition getitem2 (img : ndarray) (rs cs : Z * Z) : ndarray :=
  {| rows := map (fun r => py_slice r cs.1 cs.2) (py_slice (rows img) rs.1 rs.2);
     width := (slice_bounds (Z.of_nat (width img)) cs.1 cs.2).2;
     channels := channels img |}.

Definition zeros (h w c : nat) : ndarray :=
  {| rows := replicate h (replicate w (replicate c 0));
     width := w; channels := c |}.

(** ** crop (image.py, lines 177-195) *)

Definition box := (Q * Q * Q * Q)%type.

Definition box_of_ints (b : Z * Z * Z * Z) : box :=
  let '(x, y, w, h) := b in (inject_Z x, inject_Z y, inject_Z w, inject_Z h).

(** [numpy.any(box)] on a 4-tuple of numbers *)
Definition numpy_any (b : box) : bool :=
  let '(x, y, w, h) := b in
  py_bool x || py_bool y || py_bool w || py_bool h.

Definition crop (img : ndarray) (b : box) : ndarray :=
  if negb (numpy_any b) then img
  else
    let '(max_height, max_width, _) := shape img in
    let '(x, y, w, h) := b in
    let x := py_round (py_max x 0%Q) in
    let y := py_round (py_max y 0%Q) in
    let w := x + py_round (py_min w (inject_Z max_width)) in
    let h := y + py_round (py_min h (inject_Z max_width)) in
    getitem2 img (y, h) (x, w).

(** What clamping the height bound against the height would return; used
    only to exhibit the difference. *)
Definition crop_height_clamped (img : ndarray) (b : Z * Z * Z * Z) : ndarray :=
  let '(x, y, w, h) := b in
  let x := Z.max x 0 in
  let y := Z.max y 0 in
  getitem2 img (y, y + Z.min h (height img)) (x, x + Z.min w (Z.of_nat (width img))).

(** A 3-row, 2-column, 1-channel picture whose pixel at row r, column c
    holds 10*r + c. *)
Definition tall_3x2 : ndarray :=
  {| rows := [ [[0]; [1]]; [[10]; [11]]; [[20]; [21]] ];
     width := 2; channels := 1 |}.

(** ** crop_margin (lines 198-204)

    The sums and differences are those of the rationals: exact for ints,
    and for floats whenever the floating-point result is exact. *)

Definition crop_margin (img : ndarray) (margin_size : Q) (b : box) : ndarray :=
  let '(x, y, w, h) := b in
  let w := (w + margin_size)%Q in
  let h := (h + margin_size)%Q in
  let x := (x - margin_size)%Q in
  let y := (y - margin_size)%Q in
  crop img (x, y, w, h).

(** ** crop_center (lines 213-227); [crop_size] is a pair of ints *)

Definition crop_center (img : ndarray) (crop_size : Z * Z) : py ndarray :=
  let '(height, width, _) := shape img in
  let '(width_crop, height_crop) := crop_size in
  if (width <=? width_crop) || (height <=? height_crop) then Raise ValueError
  else
    let x := py_round (inject_Z (width - width_crop) / 2)%Q in
    let y := py_round (inject_Z (height - height_crop) / 2)%Q in
    Ok (crop img (box_of_ints (x, y, width_crop, height_crop))).

(** ** Dynamically typed arguments

    [width], [height], [output_size] and [center] may be [None], an [int],
    a [float] or a tuple of ints. *)

Inductive pyval :=
| VNone
| VInt (z : Z)
| VFloat (f : float)
| VTuple (l : list Z).

Module PyVal.

(** int -> float conversion, correctly rounded *)
Definition float_of_Z (z : Z) : float :=
  SF2Prim (binary_normalize prec emax z 0 false).

(** [int(f)]: truncation toward zero *)
Definition int_of_float (f : float) : py Z :=
  match Prim2SF f with
  | S754_zero _ => Ok 0
  | S754_finite s m e =>
      let v := if 0 <=? e then Z.pos m * 2 ^ e else Z.pos m / 2 ^ (- e) in
      Ok (if s then - v else v)
  | S754_infinity _ => Raise OverflowError
  | S754_nan => Raise ValueError
  end.

Definition is_none (v : pyval) : bool :=
  match v with VNone => true | _ => false end.

(** [bool(v)] *)
Definition truthy (v : pyval) : bool :=
  match v with
  | VNone => false
  | VInt z => negb (z =? 0)
  | VFloat f => negb (PrimFloat.eqb f 0)
  | VTuple l => negb (bool_decide (l = []))
  end.

(** [v > 0] *)
Definition gt0 (v : pyval) : py bool :=
  match v with
  | VInt z => Ok (0 <? z)
  | VFloat f => Ok (PrimFloat.ltb 0 f)
  | VNone | VTuple _ => Raise TypeError
  end.

(** [v <= 0] *)
Definition le0 (v : pyval) : py bool :=
  match v with
  | VInt z => Ok (z <=? 0)
  | VFloat f => Ok (PrimFloat.leb f 0)
  | VNone | VTuple _ => Raise TypeError
  end.

Definition as_float (v : pyval) : py float :=
  match v with
  | VInt z => Ok (float_of_Z z)
  | VFloat f => Ok f
  | VNone | VTuple _ => Raise TypeError
  end.

(** [a / b] with an int or float divisor [b] (true division; an int
    operand is converted to float, which is exact below 2^53). *)
Definition truediv (a b : pyval) : py pyval :=
  x ← as_float a;
  y ← as_float b;
  if PrimFloat.eqb y 0 then Raise ZeroDivisionError
  else Ok (VFloat (x / y)%float).

(** [a * n] with an int [n] *)
Definition mul_int (a : pyval) (n : Z) : py pyval :=
  match a with
  | VInt z => Ok (VInt (z * n))
  | VFloat f => Ok (VFloat (f * float_of_Z n)%float)
  | VTuple l => Ok (VTuple (mjoin (replicate (Z.to_nat n) l)))
  | VNone => Raise TypeError
  end.

(** [int(v)] *)
Definition to_int (v : pyval) : py Z :=
  match v with
  | VInt z => Ok z
  | VFloat f => int_of_float f
  | VNone | VTuple _ => Raise TypeError
  end.

End PyVal.

(** ** True division of ints

    [a / b] on two ints is the binary64 value nearest to the exact quotient
    (ties to the even mantissa) and raises [OverflowError] when that value
    is out of range.  The divisor used by the adapter is ten. *)

Module PyInt.

(** the integer nearest to [n / d], ties to the even one; [0 <= n], [0 < d] *)
Definition div_nearest_even (n d : Z) : Z :=
  let k := n / d in
  let r := n mod d in
  if 2 * r <? d then k
  else if d <? 2 * r then k + 1
  else if Z.even k then k else k + 1.

(** The tenth of a positive int [n] rounded to binary64, then truncated as
    [int()] does: with [2^e <= n/10 < 2^(e+1)] the rounded value is
    [m * 2^(e-52)] for the 53-bit mantissa [m] nearest to
    [n / (10 * 2^(e-52))]; [None] when it reaches [2^1024]. *)
Definition tenth_magnitude (n : Z) : option Z :=
  let l := Z.log2 n in
  let e := if 10 * 2 ^ l <=? 8 * n then l - 3 else l - 4 in
  if 52 <=? e
  then let m := div_nearest_even n (10 * 2 ^ (e - 52)) in
       if 2 ^ 1024 <=? m * 2 ^ (e - 52) then None
       else Some (m * 2 ^ (e - 52))
  else let m := div_nearest_even (n * 2 ^ (52 - e)) 10 in
       Some (m / 2 ^ (52 - e)).

(** [int(q / 10)] for an int [q] *)
Definition int_of_tenth (q : Z) : py Z :=
  if q =? 0 then Ok 0
  else match tenth_magnitude (Z.abs q) with
       | None => Raise OverflowError
       | Some t => Ok (if q <? 0 then - t else t)
       end.

End PyInt.

(** ** Text helpers *)

Abbreviation bytes := (list byte).

(** [s.split(sep)] for a one-character separator *)
Fixpoint py_split (sep : ascii) (s : string) : list string :=
  match s with
  | EmptyString => [EmptyString]
  | String c rest =>
      if Ascii.eqb c sep then EmptyString :: py_split sep rest
      else match py_split sep rest with
           | piece :: pieces => String c piece :: pieces
           | [] => [String c EmptyString]
           end
  end.

(** [l[-1]] of a list of strings known to be non-empty *)
Definition last_piece (l : list string) : string := List.last l EmptyString.

(** ** Colours and positions of the drawing functions *)

Definition color := list Z.

Inductive color_arg :=
| ColorTuple (c : color)
| ColorHex (s : string).

Inductive position_arg :=
| PosTuple (l : list Z)
| PosList (l : list Z).

(** [tuple(position)] *)
Definition as_tuple (p : position_arg) : list Z :=
  match p with PosTuple l | PosList l => l end.

(** The position as a caller may hand it over: a tuple or a list, or an
    object that cannot be iterated ([None], a number). *)
Inductive position_obj :=
| PosSequence (p : position_arg)
| PosNotIterable.

(** Constants of the vision library *)
Definition FONT_HERSHEY_DUPLEX : Z := 2.
Definition LINE_AA : Z := 16.
Definition IMWRITE_PNG_COMPRESSION : Z := 16.

(** ** The wrapped libraries and the constants of sibling modules

    [constant.py] and [tool.py] are not part of the sources at hand and the
    codecs are native code; what the adapter needs from them is collected
    in one interface.  The two laws are OpenCV's contract for the size
    argument [dsize = (width, height)]: the result has [height] rows and
    [width] columns. *)

Class Backend := {
  format : Type;
  format_eq_dec :: EqDecision format;
  ENCODE_JPEG : format;
  ENCODE_PNG : format;
  imgtype : Type;
  imgtype_eq_dec :: EqDecision imgtype;
  JPEG_FORMAT : imgtype;
  JPEG2000_FORMAT : imgtype;
  image_info : bytes -> py (imgtype * (Z * Z));
  hex2rgb : string -> py color;
  color_rgb2bgr : color -> py color;
  jpeg_encode : ndarray -> Z -> Z -> py bytes;
  jpeg_decode : bytes -> Z -> py ndarray;
  cv2_imencode : format -> ndarray -> list Z -> py bytes;
  cv2_imdecode : bytes -> Z -> py (option ndarray);
  matrix : Type;
  getRotationMatrix2D : Z * Z -> float -> float -> matrix;
  warpAffine : ndarray -> matrix -> Z * Z -> py ndarray;
  cv2_resize : ndarray -> Z * Z -> option Z -> py ndarray;
  getTextSize : string -> Z -> Q -> Z -> py ((Z * Z) * Z);
  putText : ndarray -> string -> list Z -> Z -> Q -> color -> Z -> option Z -> py ndarray;
  warpAffine_shape : forall img M dw dh,
    0 < height img -> 0 < Z.of_nat (width img) -> 0 < dw -> 0 < dh ->
    exists out, warpAffine img M (dw, dh) = Ok out /\
                shape out = (dh, dw, Z.of_nat (channels img));
  cv2_resize_shape : forall img dw dh interpolation,
    0 < height img -> 0 < Z.of_nat (width img) -> 0 < dw -> 0 < dh ->
    exists out, cv2_resize img (dw, dh) interpolation = Ok out /\
                shape out = (dh, dw, Z.of_nat (channels img))
}.

Section Adapter.
Context `{B : Backend}.
Import PyVal.

(** ** imencode (lines 34-71) *)

Definition imencode (img : ndarray) (encode_type : format)
    (quality pixel_format : Z) : py bytes :=
  if decide (encode_type = ENCODE_JPEG) then
    jpeg_encode img quality pixel_format
  else
    tenth ← PyInt.int_of_tenth quality;
    let quality := Z.max 0 (Z.min (tenth - 1) 9) in
    cv2_imencode ENCODE_PNG img [IMWRITE_PNG_COMPRESSION; quality].

(** ** imdecode (lines 74-100) *)

Definition imdecode (buffer : bytes) (pixel_format : Z) : py (option ndarray) :=
  '(ext, _) ← image_info buffer;
  if bool_decide (ext ∈ [JPEG_FORMAT; JPEG2000_FORMAT]) then
    img ← jpeg_decode buffer pixel_format; Ok (Some img)
  else cv2_imdecode buffer 1.

(** ** resize (lines 230-246) *)

Definition resize (img : ndarray) (width height : pyval)
    (interpolation : option Z) : py ndarray :=
  unfilled ←
    (if is_none width && is_none height then Ok true
     else
       a ← (if negb (truthy width) then Ok true else gt0 width);
       if a : bool then Ok false
       else
         b ← (if negb (truthy height) then Ok true else gt0 height);
         Ok (negb b));
  if unfilled : bool then Ok img
  else
    let '(old_h, old_w, _) := shape img in
    c ← (if negb (truthy width) then Ok true else le0 width);
    width ← (if c : bool then t ← truediv height (VInt old_h); mul_int t old_w
             else Ok width);
    c ← (if negb (truthy height) then Ok true else le0 height);
    height ← (if c : bool then t ← truediv width (VInt old_w); mul_int t old_h
              else Ok height);
    w ← to_int width;
    h ← to_int height;
    cv2_resize img (w, h) interpolation.

(** ** crop_scale (lines 294-303) *)

Definition crop_scale (img : ndarray) (b : box) (output_size : pyval)
    : py ndarray :=
  let b := if negb (numpy_any b)
           then let '(h, w, _) := shape img in box_of_ints (0, 0, w, h)
           else b in
  let img := crop img b in
  if truthy output_size then resize img output_size VNone None
  else Ok img.

(** ** zoom (lines 261-291) and rotate_crop (lines 325-340) *)

Definition check_center (center : pyval) (w h : Z) : py (Z * Z) :=
  match center with
  | VTuple l =>
      _ ← py_assert (Z.of_nat (length l) =? 2);
      match l with
      | [c0; c1] =>
          _ ← py_assert ((0 <=? c0) && (c0 <=? w) && (0 <=? c1) && (c1 <=? h));
          Ok (c0, c1)
      | _ => Raise AssertionError
      end
  | _ => Ok (w / 2, h / 2)
  end.

Definition center_type_ok (center : pyval) : bool :=
  match center with VNone | VTuple _ => true | _ => false end.

Definition zoom (img : ndarray) (zoom_level : float) (center : pyval)
    : py ndarray :=
  _ ← py_assert (center_type_ok center);
  if PrimFloat.eqb zoom_level 1 then Ok img
  else
    let '(h, w, _) := shape img in
    center ← check_center center w h;
    let rotate_matrix := getRotationMatrix2D center 0 zoom_level in
    warpAffine img rotate_matrix (w, h).

Definition rotate_crop (img : ndarray) (angle : float) (center : pyval)
    : py ndarray :=
  _ ← py_assert (center_type_ok center);
  let '(h, w, _) := shape img in
  center ← check_center center w h;
  let rotate_matix := getRotationMatrix2D center (- angle)%float 1 in
  warpAffine img rotate_matix (h, w).

(** ** draw_text (lines 343-376); the buffer is drawn on in place, the
    result is its content afterwards *)

Definition draw_line (font : Z) (col : color) (scale_factor : Q)
    (thickness : Z) (acc : py ndarray) (il : nat * string) : py ndarray :=
  img ← acc;
  let '(i, line) := il in
  '(text_size, _) ← getTextSize line font scale_factor thickness;
  let gap := text_size.2 + 10 in
  let '(h, w, _) := shape img in
  let y := Z.quot (h + text_size.2) 2 + Z.of_nat i * gap in
  let x := Z.quot (w - text_size.1) 2 in
  putText img line [x; y] font scale_factor col thickness (Some LINE_AA).

Definition draw_text (img : ndarray) (label : string) (position : position_arg)
    (col : color_arg) (scale_factor : Q) (thickness : Z) (font : Z)
    (wrap_text : bool) : py ndarray :=
  let position := as_tuple position in
  col ← match col with
        | ColorHex s => c ← hex2rgb s; color_rgb2bgr c
        | ColorTuple c => Ok c
        end;
  if wrap_text then
    foldl (draw_line font col scale_factor thickness) (Ok img)
          (imap pair (py_split "010" label))
  else
    putText img label position FONT_HERSHEY_DUPLEX scale_factor col thickness None.

(** [draw_text] called with any object as position: [tuple(position)] on
    lines 351-352 comes first and raises [TypeError] for an object that is
    not iterable. *)
Definition draw_text_any (img : ndarray) (label : string)
    (position : position_obj) (col : color_arg) (scale_factor : Q)
    (thickness : Z) (font : Z) (wrap_text : bool) : py ndarray :=
  match position with
  | PosSequence p => draw_text img label p col scale_factor thickness font wrap_text
  | PosNotIterable => Raise TypeError
  end.

End Adapter.

(** ** File and stream arguments of imread and imwrite *)

Inductive pyclass :=
| ClsStr
| ClsBufferedReader
| ClsBufferedWriter
| ClsBytesIO
| ClsBytes
| ClsInt
| ClsNoneType.

#[global] Instance pyclass_eq_dec : EqDecision pyclass.
Proof. solve_decision. Defined.

(** The objects a caller may hand over as [img_path].  A reader carries the
    content still to be read; a writer is named by its descriptor. *)
Inductive pyobj :=
| OStr (s : string)
| OBufferedReader (content : bytes)
| OBufferedWriter (fd : nat)
| OBytesIO (content : bytes)
| OBytes (content : bytes)
| OInt (z : Z)
| ONone.

Definition type_of (o : pyobj) : pyclass :=
  match o with
  | OStr _ => ClsStr
  | OBufferedReader _ => ClsBufferedReader
  | OBufferedWriter _ => ClsBufferedWriter
  | OBytesIO _ => ClsBytesIO
  | OBytes _ => ClsBytes
  | OInt _ => ClsInt
  | ONone => ClsNoneType
  end.

(** [isinstance(o, classes)]; none of the classes above derives from
    another one of them. *)
Definition isinstance (o : pyobj) (classes : list pyclass) : bool :=
  bool_decide (type_of o ∈ classes).

(** The file system.  Several spellings of a path name one file
    ([photo.jpg], [./photo.jpg]): [resolve] gives the file a path names,
    [store] holds the regular files under that name, and [wb_error] tells
    for which paths [open(p, 'wb')] fails and with which error (a missing
    directory, a directory in place of the file, missing rights). *)
Record filesystem := FileSystem {
  resolve : string -> string;
  store : gmap string bytes;
  wb_error : string -> option exn
}.

(** the content of the regular file that a path names *)
#[global] Instance filesystem_lookup : Lookup string bytes filesystem :=
  fun p fs => store fs !! resolve fs p.

(** the content of the file that a path names is replaced *)
#[global] Instance filesystem_insert : Insert string bytes filesystem :=
  fun p content fs =>
    {| resolve := resolve fs;
       store := <[resolve fs p := content]> (store fs);
       wb_error := wb_error fs |}.

(** An open [io.BufferedWriter]: the file it writes into, when it has one
    (as after [open(p, 'wb')]), everything written through it since it was
    opened, and whether it has been closed. *)
Record writer := Writer {
  sink : option string;
  written : bytes;
  closed : bool
}.

Record world := World {
  files : filesystem;
  writers : gmap nat writer
}.

(** [os.path.isfile(p)] *)
Definition isfile (w : world) (p : string) : bool :=
  bool_decide (is_Some (files w !! p)).

(** [open(p, 'wb')]: the file is created or truncated, unless the path
    cannot be opened. *)
Definition open_wb (w : world) (p : string) : py world :=
  match wb_error (files w) p with
  | Some e => Raise e
  | None => Ok {| files := <[p := []]> (files w); writers := writers w |}
  end.

Definition write_file (w : world) (p : string) (buffer : bytes) : world :=
  {| files := <[p := buffer]> (files w); writers := writers w |}.

(** the writer is closed: what was written through it is flushed into the
    file behind it *)
Definition close_writer (w : world) (fd : nat) (wr : writer) : world :=
  {| files := match sink wr with
              | Some p => <[p := written wr]> (files w)
              | None => files w
              end;
     writers := <[fd := {| sink := sink wr; written := written wr;
                          closed := true |}]> (writers w) |}.

Section AdapterIO.
Context `{B : Backend}.

(** ** imread (lines 103-126) *)

Definition imread (w : world) (img_path : pyobj) (pixel_format : Z)
    : py (option ndarray) :=
  _ ← py_assert (isinstance img_path [ClsStr; ClsBufferedReader]);
  buffer ← match img_path with
           | OStr p =>
               match files w !! p with
               | Some content => Ok content
               | None => Raise FileNotFoundError
               end
           | OBufferedReader content => Ok content
           | _ => Raise AssertionError
           end;
  imdecode buffer pixel_format.

(** ** imwrite (lines 129-174) *)

(** the path after the extension has been appended where it is missing *)
Definition target_path (img_path : string) (encode_type : format) : string :=
  let ext := if decide (encode_type = ENCODE_PNG) then "png" else "jpg" in
  if negb (String.eqb ext (last_piece (py_split "." img_path)))
  then img_path +:+ "." +:+ ext
  else img_path.

Definition imwrite (w : world) (img : ndarray) (img_path : pyobj)
    (encode_type : format) (quality pixel_format : Z) (over_write : bool)
    : py unit * world :=
  if negb (isinstance img_path [ClsStr; ClsBufferedWriter])
  then (Raise AssertionError, w)
  else
    match img_path with
    | OStr p =>
        let p := target_path p encode_type in
        if isfile w p && negb over_write then (Raise FileExistsError, w)
        else
          match open_wb w p with
          | Raise e => (Raise e, w)
          | Ok w =>
              match imencode img encode_type quality pixel_format with
              | Ok buffer => (Ok tt, write_file w p buffer)
              | Raise e => (Raise e, w)
              end
          end
    | OBufferedWriter fd =>
        match writers w !! fd with
        | Some wr =>
            if closed wr then (Raise ValueError, w)
            else
              match imencode img encode_type quality pixel_format with
              | Ok buffer =>
                  (Ok tt, close_writer w fd
                            {| sink := sink wr; written := written wr ++ buffer;
                               closed := false |})
              | Raise e => (Raise e, close_writer w fd wr)
              end
        | None => (Raise ValueError, w)
        end
    | _ => (Raise AssertionError, w)
    end.

End AdapterIO.

(** ** flip (lines 249-258)

    The three mode constants come from [constant.py]. *)

Class FlipModes := {
  flip_mode : Type;
  flip_mode_eq_dec :: EqDecision flip_mode;
  FLIP_HORIZONTAL : flip_mode;
  FLIP_VERTICAL : flip_mode;
  FLIP_BOTH : flip_mode
}.

(** reversal along one axis: rows, columns or channels *)
Definition flip_axis (img : ndarray) (axis : nat) : ndarray :=
  match axis with
  | O => {| rows := reverse (rows img);
            width := width img; channels := channels img |}
  | S O => {| rows := map reverse (rows img);
              width := width img; channels := channels img |}
  | _ => {| rows := map (map reverse) (rows img);
            width := width img; channels := channels img |}
  end.

(** [numpy.flip(img, axis)] for an axis or a tuple of axes *)
Definition numpy_flip (img : ndarray) (axes : list nat) : ndarray :=
  foldl flip_axis img axes.

Definition flip `{F : FlipModes} (img : ndarray) (mode : flip_mode) : py ndarray :=
  axis ← (if decide (mode = FLIP_VERTICAL) then Ok [0%nat]
          else if decide (mode = FLIP_HORIZONTAL) then Ok [1%nat]
          else if decide (mode = FLIP_BOTH) then Ok [0%nat; 1%nat]
          else Raise ValueError);
  Ok (numpy_flip img axis).

(** [img[i, j]] for indices counted from the start *)
Definition pixel_at (img : ndarray) (i j : Z) : option pixel :=
  row ← rows img !! Z.to_nat i; row !! Z.to_nat j.

(** ** Quantities named by the specification *)

(** [clamp(v, lo, hi)] *)
Definition clamp (v lo hi : Z) : Z :=
  if v <? lo then lo else if hi <? v then hi else v.

(** the PNG compression level of the specification:
    [clamp(floor(quality/10) - 1, 0, 9)] *)
Definition png_level (quality : Z) : Z := clamp (quality / 10 - 1) 0 9.

(** the least magnitude of an int whose tenth no longer fits a float: its
    tenth would round to [2^1024] *)
Definition tenth_overflow : Z := 10 * (2 ^ 1024 - 2 ^ 970).

(** ** An executable backend

    Blank canvases of the requested size stand for the rasterised output,
    and the codecs store the shape only; enough to run the adapter. *)

Module Toy.

Inductive toy_format := FmtJpeg | FmtPng | FmtOther (n : nat).
Inductive toy_imgtype := TyJpeg | TyJpeg2000 | TyPng | TyUnknown.

#[global] Instance toy_format_eq_dec : EqDecision toy_format.
Proof. solve_decision. Defined.
#[global] Instance toy_imgtype_eq_dec : EqDecision toy_imgtype.
Proof. solve_decision. Defined.

Definition canvas (img : ndarray) (dsize : Z * Z) : py ndarray :=
  if (0 <? height img) && (0 <? Z.of_nat (width img))
     && (0 <? dsize.1) && (0 <? dsize.2)
  then Ok (zeros (Z.to_nat dsize.2) (Z.to_nat dsize.1) (channels img))
  else Raise BackendError.

Definition sniff (buffer : bytes) : py (toy_imgtype * (Z * Z)) :=
  match buffer with
  | x00 :: _ => Ok (TyJpeg, (0, 0))
  | x01 :: _ => Ok (TyPng, (0, 0))
  | _ => Ok (TyUnknown, (0, 0))
  end.

Lemma canvas_shape img dw dh :
  0 < height img -> 0 < Z.of_nat (width img) -> 0 < dw -> 0 < dh ->
  exists out, canvas img (dw, dh) = Ok out /\
              shape out = (dh, dw, Z.of_nat (channels img)).
Proof.
  intros Hh Hw Hdw Hdh. unfold canvas; simpl.
  apply Z.ltb_lt in Hh as ->, Hw as ->, Hdw as Hdw', Hdh as Hdh'.
  rewrite Hdw', Hdh'; simpl. eexists; split; [reflexivity|].
  unfold shape, zeros; simpl. rewrite length_replicate.
  by rewrite !Z2Nat.id by lia.
Qed.

#[global] Instance backend : Backend := {|
  format := toy_format;
  ENCODE_JPEG := FmtJpeg;
  ENCODE_PNG := FmtPng;
  imgtype := toy_imgtype;
  JPEG_FORMAT := TyJpeg;
  JPEG2000_FORMAT := TyJpeg2000;
  image_info := sniff;
  hex2rgb := fun _ => Ok [0; 0; 0];
  color_rgb2bgr := fun c => Ok (reverse c);
  jpeg_encode := fun _ _ _ => Ok [x00];
  jpeg_decode := fun _ _ => Ok (zeros 1 1 3);
  cv2_imencode := fun _ _ _ => Ok [x01];
  cv2_imdecode := fun _ _ => Ok None;
  matrix := unit;
  getRotationMatrix2D := fun _ _ _ => tt;
  warpAffine := fun img _ dsize => canvas img dsize;
  cv2_resize := fun img dsize _ => canvas img dsize;
  getTextSize := fun _ _ _ _ => Ok ((0, 0), 0);
  putText := fun img _ _ _ _ _ _ _ => Ok img;
  warpAffine_shape := fun img _ => canvas_shape img;
  cv2_resize_shape := fun img dw dh _ => canvas_shape img dw dh
|}.

(** the same backend with a PNG encoder that emits as many bytes as the
    compression level it is given *)
Definition level_codec : Backend := {|
  format := toy_format;
  ENCODE_JPEG := FmtJpeg;
  ENCODE_PNG := FmtPng;
  imgtype := toy_imgtype;
  JPEG_FORMAT := TyJpeg;
  JPEG2000_FORMAT := TyJpeg2000;
  image_info := sniff;
  hex2rgb := fun _ => Ok [0; 0; 0];
  color_rgb2bgr := fun c => Ok (reverse c);
  jpeg_encode := fun _ _ _ => Ok [x00];
  jpeg_decode := fun _ _ => Ok (zeros 1 1 3);
  cv2_imencode := fun _ _ params =>
    Ok (replicate (Z.to_nat (List.last params 0)) x01);
  cv2_imdecode := fun _ _ => Ok None;
  matrix := unit;
  getRotationMatrix2D := fun _ _ _ => tt;
  warpAffine := fun img _ dsize => canvas img dsize;
  cv2_resize := fun img dsize _ => canvas img dsize;
  getTextSize := fun _ _ _ _ => Ok ((0, 0), 0);
  putText := fun img _ _ _ _ _ _ _ => Ok img;
  warpAffine_shape := fun img _ => canvas_shape img;
  cv2_resize_shape := fun img dw dh _ => canvas_shape img dw dh
|}.

(** the same backend with a JPEG codec that always fails *)
Definition broken_codec : Backend := {|
  format := toy_format;
  ENCODE_JPEG := FmtJpeg;
  ENCODE_PNG := FmtPng;
  imgtype := toy_imgtype;
  JPEG_FORMAT := TyJpeg;
  JPEG2000_FORMAT := TyJpeg2000;
  image_info := sniff;
  hex2rgb := fun _ => Ok [0; 0; 0];
  color_rgb2bgr := fun c => Ok (reverse c);
  jpeg_encode := fun _ _ _ => Raise BackendError;
  jpeg_decode := fun _ _ => Raise BackendError;
  cv2_imencode := fun _ _ _ => Ok [x01];
  cv2_imdecode := fun _ _ => Ok None;
  matrix := unit;
  getRotationMatrix2D := fun _ _ _ => tt;
  warpAffine := fun img _ dsize => canvas img dsize;
  cv2_resize := fun img dsize _ => canvas img dsize;
  getTextSize := fun _ _ _ _ => Ok ((0, 0), 0);
  putText := fun img _ _ _ _ _ _ _ => Ok img;
  warpAffine_shape := fun img _ => canvas_shape img;
  cv2_resize_shape := fun img dw dh _ => canvas_shape img dw dh
|}.

Inductive toy_flip := FlipH | FlipV | FlipHV | FlipNone.
#[global] Instance toy_flip_eq_dec : EqDecision toy_flip.
Proof. solve_decision. Defined.

#[global] Instance flip_modes : FlipModes := {|
  flip_mode := toy_flip;
  FLIP_HORIZONTAL := FlipH;
  FLIP_VERTICAL := FlipV;
  FLIP_BOTH := FlipHV
|}.

End Toy.

(** Sample inputs *)

Definition wide_2x3 : ndarray :=
  {| rows := [ [[0]; [1]; [2]]; [[10]; [11]; [12]] ];
     width := 3; channels := 1 |}.

(** a leading [./] does not change the file a path names *)
Definition strip_dot_slash (p : string) : string :=
  match p with
  | String "." (String "/" rest) => rest
  | _ => p
  end.

(** one file, [photo.jpg]; nothing can be opened below [missing/] *)
Definition sample_world : world :=
  {| files := {| resolve := strip_dot_slash;
                 store := {[ "photo.jpg" := [x2a] ]};
                 wb_error := fun p => if String.prefix "missing/" p
                                      then Some FileNotFoundError else None |};
     writers := ∅ |}.


(** * Properties *)

(** ** Numbers: rounding and clamping on integers *)

Lemma py_round_inject_Z (z : Z) : py_round (inject_Z z) = z.
Proof.
  unfold py_round. rewrite Qfloor_Z.
  replace (Qcompare (inject_Z z - inject_Z z) (1 # 2)) with Lt; [done|].
  symmetry. unfold Qcompare, Qminus, Qplus, Qopp, inject_Z; simpl.
  apply Z.compare_lt_iff. lia.
Qed.

Lemma Qle_bool_inject_Z (a b : Z) : Qle_bool (inject_Z a) (inject_Z b) = (a <=? b).
Proof. unfold Qle_bool, inject_Z; simpl. by rewrite !Z.mul_1_r. Qed.

Lemma py_max_inject_Z (a b : Z) : py_max (inject_Z a) (inject_Z b) = inject_Z (Z.max a b).
Proof.
  unfold py_max. rewrite Qle_bool_inject_Z.
  destruct (Z.leb_spec b a); f_equal; lia.
Qed.

Lemma py_min_inject_Z (a b : Z) : py_min (inject_Z a) (inject_Z b) = inject_Z (Z.min a b).
Proof.
  unfold py_min. rewrite Qle_bool_inject_Z.
  destruct (Z.leb_spec a b); f_equal; lia.
Qed.

Lemma py_bool_inject_Z (z : Z) : py_bool (inject_Z z) = negb (z =? 0).
Proof. unfold py_bool, Qeq_bool, inject_Z; simpl. by rewrite Z.mul_1_r. Qed.

Lemma numpy_any_ints (x y w h : Z) :
  numpy_any (box_of_ints (x, y, w, h)) = false <-> (x, y, w, h) = (0, 0, 0, 0).
Proof.
  unfold numpy_any, box_of_ints. rewrite !py_bool_inject_Z.
  split.
  - intros Hn. repeat (apply orb_false_elim in Hn as [Hn ?]).
    repeat match goal with
           | H : negb (_ =? 0) = false |- _ =>
               apply negb_false_iff, Z.eqb_eq in H
           end.
    by subst.
  - intros [= -> -> -> ->]. done.
Qed.

(** ** Properties of crop *)

(** C8: the all-zero box is the identity of [crop]: the input buffer is
    returned as it is, for every buffer. *)
Theorem crop_zero_box_identity (img : ndarray) :
  crop img (box_of_ints (0, 0, 0, 0)) = img.
Proof. reflexivity. Qed.

Lemma crop_clamps_height_against_width_aux (img : ndarray) (x y w h : Z) :
  (x, y, w, h) <> (0, 0, 0, 0) ->
  crop img (box_of_ints (x, y, w, h)) =
    getitem2 img
      (Z.max y 0, Z.max y 0 + Z.min h (Z.of_nat (width img)))
      (Z.max x 0, Z.max x 0 + Z.min w (Z.of_nat (width img))).
Proof.
  intros Hbox. unfold crop.
  destruct (numpy_any (box_of_ints (x, y, w, h))) eqn:Hany.
  - simpl. change 0%Q with (inject_Z 0).
    by rewrite !py_max_inject_Z, !py_min_inject_Z, !py_round_inject_Z.
  - by apply numpy_any_ints in Hany.
Qed.

(** C1: for an integer box that is not all zero, [crop] returns
    [img[y' : y' + min(h, W), x' : x' + min(w, W)]] with [x' = max(x, 0)],
    [y' = max(y, 0)] and [W] the source width: the row bound is clamped
    against the width, not the height. *)
Theorem crop_clamps_height_against_width (img : ndarray) (x y w h : Z) :
  (x, y, w, h) <> (0, 0, 0, 0) ->
  crop img (box_of_ints (x, y, w, h)) =
    getitem2 img
      (Z.max y 0, Z.max y 0 + Z.min h (Z.of_nat (width img)))
      (Z.max x 0, Z.max x 0 + Z.min w (Z.of_nat (width img))).
Proof. apply crop_clamps_height_against_width_aux. Qed.

Lemma crop_clamps_height_against_width_witness :
  (0, 0, 2, 3) <> (0, 0, 0, 0) /\
  crop tall_3x2 (box_of_ints (0, 0, 2, 3)) =
    {| rows := [ [[0]; [1]]; [[10]; [11]] ]; width := 2; channels := 1 |} /\
  crop_height_clamped tall_3x2 (0, 0, 2, 3) = tall_3x2.
Proof.
  split; [discriminate|]. split; [|reflexivity].
  rewrite (crop_clamps_height_against_width tall_3x2 0 0 2 3); [|discriminate].
  reflexivity.
Defined.

Lemma py_slice_length {A} (l : list A) (start stop : Z) :
  length (py_slice l start stop) = (slice_bounds (Z.of_nat (length l)) start stop).2.
Proof.
  unfold py_slice, slice_bounds, slice_index; simpl.
  rewrite length_take, length_drop.
  destruct (start <? 0) eqn:Hs, (stop <? 0) eqn:Ht; lia.
Qed.

(** With a non-negative height request the result never has more rows than
    the source has columns. *)
Lemma crop_rows_bounded_by_width (img : ndarray) (x y w h : Z) :
  (x, y, w, h) <> (0, 0, 0, 0) -> 0 <= h ->
  height (crop img (box_of_ints (x, y, w, h))) <= Z.of_nat (width img).
Proof.
  intros Hbox Hh. rewrite crop_clamps_height_against_width_aux by done.
  unfold height, getitem2; simpl.
  rewrite length_map, py_slice_length.
  unfold slice_bounds, slice_index; simpl.
  destruct (Z.max y 0 <? 0) eqn:Hs,
           (Z.max y 0 + Z.min h (Z.of_nat (width img)) <? 0) eqn:Ht; lia.
Qed.

(** ** crop_center *)

Lemma crop_center_raises_iff (img : ndarray) (width_crop height_crop : Z) :
  crop_center img (width_crop, height_crop) = Raise ValueError <->
  Z.of_nat (width img) <= width_crop \/ height img <= height_crop.
Proof.
  unfold crop_center, height; simpl.
  destruct (Z.leb_spec (Z.of_nat (width img)) width_crop),
           (Z.leb_spec (Z.of_nat (length (rows img))) height_crop);
    simpl; split; try done; try (intros _; lia); try (by intros [|]; lia); auto.
Qed.

Example crop_center_100_50 :
  shape <$> (match crop_center (zeros 100 100 3) (50, 50) with
             | Ok out => Some out | Raise _ => None end) = Some (50, 50, 3).
Proof. vm_compute. reflexivity. Qed.

Example crop_center_100_too_wide :
  crop_center (zeros 100 100 3) (100, 50) = Raise ValueError.
Proof. reflexivity. Qed.

(** Whenever the size check passes and the requested height exceeds the
    source width, fewer rows than requested come back. *)
Lemma crop_center_rows_short (img out : ndarray) (width_crop height_crop : Z) :
  Z.of_nat (width img) < height_crop ->
  crop_center img (width_crop, height_crop) = Ok out ->
  height out < height_crop.
Proof.
  intros Htall. unfold crop_center; simpl.
  destruct (_ || _); [done|]. intros [= <-].
  eapply Z.le_lt_trans; [apply crop_rows_bounded_by_width|exact Htall].
  - intros [= _ _ _ ->]. lia.
  - lia.
Qed.

(** C6: on a buffer of 100 rows and 10 columns a centred crop of width 5
    and height 50 is accepted by the size check, yet [crop_center] returns
    10 rows of 5 columns: the requested height is cut down to the source
    width by the row bound of [crop]. *)
Theorem crop_center_tall_source_loses_rows :
  exists out, crop_center (zeros 100 10 3) (5, 50) = Ok out /\
              shape out = (10, 5, 3).
Proof. eexists. split; [reflexivity|]. vm_compute. reflexivity. Qed.

(** ** imencode *)

Lemma png_level_range (quality : Z) : 0 <= png_level quality <= 9.
Proof.
  unfold png_level, clamp.
  destruct (Z.ltb_spec (quality / 10 - 1) 0), (Z.ltb_spec 9 (quality / 10 - 1)); lia.
Qed.

(** *** The tenth of an int, rounded to a float and truncated *)

Import PyInt.

Section DivNearest.
Variables n d : Z.
Hypothesis Hd : 0 < d.

Lemma div_nearest_even_lower (N : Z) : N * d <= n -> N <= div_nearest_even n d.
Proof.
  intros HN. unfold div_nearest_even.
  assert (N <= n / d) by (apply Z.div_le_lower_bound; lia).
  repeat match goal with |- context [if ?b then _ else _] => destruct b end; lia.
Qed.

Lemma div_nearest_even_upper (N : Z) : n < N * d -> div_nearest_even n d <= N.
Proof.
  intros HN. unfold div_nearest_even.
  assert (n / d < N) by (apply Z.div_lt_upper_bound; lia).
  repeat match goal with |- context [if ?b then _ else _] => destruct b end; lia.
Qed.

Lemma div_nearest_even_tie_up (N : Z) :
  Z.even N = true -> (2 * N - 1) * d <= 2 * n -> N <= div_nearest_even n d.
Proof.
  intros Hev HN. unfold div_nearest_even.
  pose proof (Z.div_mod n d ltac:(lia)) as Hdm.
  pose proof (Z.mod_pos_bound n d Hd) as Hr.
  set (k := n / d) in *. set (r := n mod d) in *.
  destruct (Z.ltb_spec (2 * r) d); [nia|].
  destruct (Z.ltb_spec d (2 * r)); [nia|].
  destruct (Z.even k) eqn:Hk; [|nia].
  apply Z.even_spec in Hev as [a ->]. apply Z.even_spec in Hk as [b Hb].
  nia.
Qed.

Lemma div_nearest_even_below_half (N : Z) :
  2 * n < (2 * N - 1) * d -> div_nearest_even n d <= N - 1.
Proof.
  intros HN. unfold div_nearest_even.
  pose proof (Z.div_mod n d ltac:(lia)) as Hdm.
  pose proof (Z.mod_pos_bound n d Hd) as Hr.
  set (k := n / d) in *. set (r := n mod d) in *.
  destruct (Z.ltb_spec (2 * r) d); [nia|].
  destruct (Z.ltb_spec d (2 * r)); [nia|].
  destruct (Z.even k); nia.
Qed.

End DivNearest.

(** [2 ^ c] for a literal [c], as a numeral *)
Ltac pow_numeral c :=
  let v := eval vm_compute in (2 ^ c) in
  change (2 ^ c) with v in *.

Section TenthExponent.
Variable n : Z.
Hypothesis Hn : 0 < n.

Let l := Z.log2 n.
Let e := if 10 * 2 ^ l <=? 8 * n then l - 3 else l - 4.

Lemma tenth_exponent_high :
  52 <= e ->
  0 < 2 ^ (e - 52) /\
  10 * 2 ^ (e - 52) * 2 ^ 52 <= n < 10 * 2 ^ (e - 52) * 2 ^ 53.
Proof.
  intros He.
  assert (HP : 0 < 2 ^ (e - 52)) by (apply Z.pow_pos_nonneg; lia).
  split; [exact HP|].
  destruct (Z.log2_spec n Hn) as [Hlo Hhi]. fold l in Hlo, Hhi.
  rewrite Z.pow_succ_r in Hhi by apply Z.log2_nonneg.
  subst e. destruct (Z.leb_spec (10 * 2 ^ l) (8 * n)) as [Hc|Hc].
  - assert (Hpow : 2 ^ l = 2 ^ (l - 3 - 52) * 2 ^ 55)
      by (rewrite <- Z.pow_add_r by lia; f_equal; lia).
    rewrite Hpow in Hlo, Hhi, Hc.
    pow_numeral 55. pow_numeral 52. pow_numeral 53. lia.
  - assert (Hpow : 2 ^ l = 2 ^ (l - 4 - 52) * 2 ^ 56)
      by (rewrite <- Z.pow_add_r by lia; f_equal; lia).
    rewrite Hpow in Hlo, Hhi, Hc.
    pow_numeral 56. pow_numeral 52. pow_numeral 53. lia.
Qed.

Lemma tenth_exponent_low :
  e < 52 ->
  0 < 2 ^ (52 - e) /\
  10 * 2 ^ 52 <= n * 2 ^ (52 - e) < 10 * 2 ^ 53.
Proof.
  intros He.
  assert (HP : 0 < 2 ^ (52 - e)) by (apply Z.pow_pos_nonneg; lia).
  split; [exact HP|].
  destruct (Z.log2_spec n Hn) as [Hlo Hhi]. fold l in Hlo, Hhi.
  rewrite Z.pow_succ_r in Hhi by apply Z.log2_nonneg.
  assert (Hl : 0 <= l) by apply Z.log2_nonneg.
  subst e. destruct (Z.leb_spec (10 * 2 ^ l) (8 * n)) as [Hc|Hc].
  - assert (Hprod : 2 ^ l * 2 ^ (52 - (l - 3)) = 2 ^ 55)
      by (rewrite <- Z.pow_add_r by lia; f_equal; lia).
    pow_numeral 55. pow_numeral 52. pow_numeral 53. nia.
  - assert (Hprod : 2 ^ l * 2 ^ (52 - (l - 4)) = 2 ^ 56)
      by (rewrite <- Z.pow_add_r by lia; f_equal; lia).
    pow_numeral 56. pow_numeral 52. pow_numeral 53. nia.
Qed.

End TenthExponent.

Lemma tenth_magnitude_in_range (n : Z) :
  0 < n < tenth_overflow ->
  exists t, tenth_magnitude n = Some t /\ 0 <= t /\ (100 <= n -> 10 <= t).
Proof.
  intros [Hn Hrange]. unfold tenth_magnitude, tenth_overflow in *.
  pose proof (tenth_exponent_high n Hn) as Hhigh.
  pose proof (tenth_exponent_low n Hn) as Hlow.
  cbv zeta in Hhigh, Hlow.
  set (e := if 10 * 2 ^ Z.log2 n <=? 8 * n then Z.log2 n - 3 else Z.log2 n - 4) in *.
  destruct (Z.leb_spec 52 e) as [He|He].
  - destruct (Hhigh He) as (HP & Hlo & Hhi). clear Hhigh Hlow.
    set (P := 2 ^ (e - 52)) in *.
    set (m := div_nearest_even n (10 * P)).
    assert (Hm52 : 2 ^ 52 <= m)
      by (apply div_nearest_even_lower; lia).
    assert (Hm53 : m <= 2 ^ 53)
      by (apply div_nearest_even_upper; lia).
    assert (Hfit : m * P < 2 ^ 1024).
    { destruct (Z.lt_trichotomy e 1023) as [Hlt|[Heq|Hgt]].
      - assert (HP970 : P <= 2 ^ 970)
          by (subst P; apply Z.pow_le_mono_r; lia).
        assert (m * P <= 2 ^ 53 * 2 ^ 970) by (apply Z.mul_le_mono_nonneg; lia).
        pow_numeral 53. pow_numeral 970. pow_numeral 1024. lia.
      - assert (HP971 : P = 2 ^ 971) by (subst P; f_equal; lia).
        assert (Hm : m <= 2 ^ 53 - 1).
        { apply div_nearest_even_below_half; [lia|]. rewrite HP971.
          pow_numeral 53. pow_numeral 971. pow_numeral 1024. pow_numeral 970. lia. }
        assert (m * P <= (2 ^ 53 - 1) * 2 ^ 971)
          by (rewrite HP971; apply Z.mul_le_mono_nonneg_r; lia).
        pow_numeral 53. pow_numeral 971. pow_numeral 1024. lia.
      - assert (HP972 : 2 ^ 972 <= P)
          by (subst P; apply Z.pow_le_mono_r; lia).
        pow_numeral 52. pow_numeral 972. pow_numeral 1024. pow_numeral 970. lia. }
    destruct (Z.leb_spec (2 ^ 1024) (m * P)); [lia|].
    eexists. split; [reflexivity|].
    assert (2 ^ 52 * 1 <= m * P) by (apply Z.mul_le_mono_nonneg; lia).
    pow_numeral 52. lia.
  - destruct (Hlow He) as (HP & Hlo & Hhi). clear Hhigh Hlow.
    set (P := 2 ^ (52 - e)) in *.
    set (m := div_nearest_even (n * P) 10).
    eexists. split; [reflexivity|]. split.
    + apply Z.div_pos; [|lia]. apply (div_nearest_even_lower (n * P) 10); lia.
    + intros H100. apply Z.div_le_lower_bound; [lia|].
      apply div_nearest_even_lower; nia.
Qed.

Lemma tenth_magnitude_overflow (n : Z) :
  tenth_overflow <= n -> tenth_magnitude n = None.
Proof.
  intros Hbig. unfold tenth_magnitude, tenth_overflow in *.
  assert (Hn : 0 < n) by (pow_numeral 1024; pow_numeral 970; lia).
  pose proof (tenth_exponent_high n Hn) as Hhigh.
  pose proof (tenth_exponent_low n Hn) as Hlow.
  cbv zeta in Hhigh, Hlow.
  set (e := if 10 * 2 ^ Z.log2 n <=? 8 * n then Z.log2 n - 3 else Z.log2 n - 4) in *.
  destruct (Z.leb_spec 52 e) as [He|He].
  - destruct (Hhigh He) as (HP & Hlo & Hhi). clear Hhigh Hlow.
    set (P := 2 ^ (e - 52)) in *.
    set (m := div_nearest_even n (10 * P)).
    assert (Hm52 : 2 ^ 52 <= m)
      by (apply div_nearest_even_lower; lia).
    assert (Hover : 2 ^ 1024 <= m * P).
    { destruct (Z.lt_trichotomy e 1023) as [Hlt|[Heq|Hgt]].
      - assert (HP970 : P <= 2 ^ 970)
          by (subst P; apply Z.pow_le_mono_r; lia).
        pow_numeral 53. pow_numeral 970. pow_numeral 1024. lia.
      - assert (HP971 : P = 2 ^ 971) by (subst P; f_equal; lia).
        assert (Hm : 2 ^ 53 <= m).
        { apply div_nearest_even_tie_up; [lia|reflexivity|]. rewrite HP971.
          pow_numeral 53. pow_numeral 971. pow_numeral 1024. pow_numeral 970. lia. }
        assert (2 ^ 53 * 2 ^ 971 <= m * P)
          by (rewrite HP971; apply Z.mul_le_mono_nonneg_r; lia).
        pow_numeral 53. pow_numeral 971. pow_numeral 1024. lia.
      - assert (HP972 : 2 ^ 972 <= P)
          by (subst P; apply Z.pow_le_mono_r; lia).
        assert (2 ^ 52 * 2 ^ 972 <= m * P)
          by (apply Z.mul_le_mono_nonneg; lia).
        pow_numeral 52. pow_numeral 972. pow_numeral 1024. lia. }
    by destruct (Z.leb_spec (2 ^ 1024) (m * P)); [|lia].
  - destruct (Hlow He) as (HP & Hlo & Hhi).
    assert (n * 1 <= n * 2 ^ (52 - e)) by (apply Z.mul_le_mono_nonneg_l; lia).
    pow_numeral 53. pow_numeral 1024. pow_numeral 970. lia.
Qed.

Lemma tenth_magnitude_small_all :
  forallb (fun n => match tenth_magnitude n with
                    | Some t => t =? n / 10
                    | None => false
                    end) (seqZ 1 99) = true.
Proof. vm_compute. reflexivity. Qed.

Lemma tenth_magnitude_small (n : Z) :
  0 < n < 100 -> tenth_magnitude n = Some (n / 10).
Proof.
  intros Hn.
  assert (Hin : In n (seqZ 1 99)) by (apply list_elem_of_In, elem_of_seqZ; lia).
  pose proof (proj1 (forallb_forall _ _) tenth_magnitude_small_all n Hin) as Hall.
  simpl in Hall. destruct (tenth_magnitude n) as [t|]; [|done].
  f_equal. by apply Z.eqb_eq.
Qed.

(** Within the float range the truncated tenth gives, after clamping, the
    level of the floor of the tenth. *)
Lemma int_of_tenth_level (q : Z) :
  Z.abs q < tenth_overflow ->
  exists t, int_of_tenth q = Ok t /\ Z.max 0 (Z.min (t - 1) 9) = png_level q.
Proof.
  intros Hrange. unfold int_of_tenth, png_level, clamp.
  destruct (Z.eqb_spec q 0) as [->|Hq]; [by exists 0|].
  destruct (Z.ltb_spec q 0) as [Hneg|Hpos].
  - destruct (tenth_magnitude_in_range (Z.abs q)) as (t & -> & Ht & _); [lia|].
    eexists. split; [reflexivity|].
    destruct (Z.ltb_spec (q / 10 - 1) 0), (Z.ltb_spec 9 (q / 10 - 1));
      Z.to_euclidean_division_equations; lia.
  - rewrite Z.abs_eq in * by lia.
    destruct (Z.lt_ge_cases q 100) as [Hsmall|Hlarge].
    + rewrite tenth_magnitude_small by lia. eexists. split; [reflexivity|].
      destruct (Z.ltb_spec (q / 10 - 1) 0), (Z.ltb_spec 9 (q / 10 - 1)); lia.
    + destruct (tenth_magnitude_in_range q) as (t & -> & _ & Ht); [lia|].
      specialize (Ht Hlarge). eexists. split; [reflexivity|].
      destruct (Z.ltb_spec (q / 10 - 1) 0), (Z.ltb_spec 9 (q / 10 - 1));
        Z.to_euclidean_division_equations; lia.
Qed.

Lemma int_of_tenth_overflow (q : Z) :
  tenth_overflow <= Z.abs q -> int_of_tenth q = Raise OverflowError.
Proof.
  intros Hbig. unfold int_of_tenth.
  rewrite tenth_magnitude_overflow by done.
  destruct (Z.eqb_spec q 0) as [->|Hq]; [|done].
  unfold tenth_overflow in Hbig. simpl in Hbig. lia.
Qed.

(** The integer model of the rounded tenth agrees with binary64 division
    on ints that convert to a float exactly. *)
Example int_of_tenth_is_binary64 :
  forallb (fun q => match int_of_tenth q,
                          PyVal.int_of_float (PyVal.float_of_Z q / 10)%float with
                    | Ok a, Ok b => a =? b
                    | _, _ => false
                    end)
          (map (fun n => Z.of_nat n - 1000) (seq 0 3000)
           ++ map (fun n => (Z.of_nat n + 1) * 2 ^ 100) (seq 0 500)
           ++ map (fun n => 2 ^ 53 - 1 - Z.of_nat n) (seq 0 500)) = true.
Proof. vm_compute. reflexivity. Qed.

(** C7: the JPEG format hands quality and pixel format to the JPEG codec
    as they are and every other format value takes the PNG path.  There,
    for every int quality whose tenth fits a float, that is with
    [|quality| < 10 * (2^1024 - 2^970)], the backend is given the
    compression level [clamp(floor(quality/10) - 1, 0, 9)]; for a larger
    magnitude [quality / 10] raises [OverflowError]. *)
Theorem imencode_dispatch_float_range `{B : Backend} (img : ndarray)
    (quality pixel_format : Z) :
  imencode img ENCODE_JPEG quality pixel_format
    = jpeg_encode img quality pixel_format /\
  forall encode_type, encode_type <> ENCODE_JPEG ->
    (Z.abs quality < tenth_overflow ->
     imencode img encode_type quality pixel_format
       = cv2_imencode ENCODE_PNG img [IMWRITE_PNG_COMPRESSION; png_level quality]) /\
    (tenth_overflow <= Z.abs quality ->
     imencode img encode_type quality pixel_format = Raise OverflowError).
Proof.
  unfold imencode. split.
  - by rewrite decide_True.
  - intros encode_type Hne. rewrite decide_False by done. split.
    + intros Hrange.
      destruct (int_of_tenth_level quality Hrange) as (t & -> & Hlevel).
      simpl. by rewrite Hlevel.
    + intros Hbig. by rewrite int_of_tenth_overflow.
Qed.

Lemma imencode_dispatch_float_range_witness :
  Toy.FmtOther 7 <> ENCODE_JPEG (Backend := Toy.level_codec) /\
  Z.abs 95 < tenth_overflow /\
  imencode (B := Toy.level_codec) wide_2x3 (Toy.FmtOther 7) 95 0
    = Ok [x01; x01; x01; x01; x01; x01; x01; x01].
Proof.
  assert (Hne : Toy.FmtOther 7 <> ENCODE_JPEG (Backend := Toy.level_codec))
    by discriminate.
  assert (Hrange : Z.abs 95 < tenth_overflow) by reflexivity.
  split; [exact Hne|]. split; [exact Hrange|].
  rewrite (proj1 (proj2 (imencode_dispatch_float_range (B := Toy.level_codec)
                           wide_2x3 95 0) (Toy.FmtOther 7) Hne) Hrange).
  reflexivity.
Defined.

(** For the int quality [10^310] the PNG path raises [OverflowError] where
    the level [clamp(floor(quality/10) - 1, 0, 9)] would be 9. *)
Lemma imencode_huge_quality_overflows :
  Toy.FmtPng <> ENCODE_JPEG (Backend := Toy.level_codec) /\
  imencode (B := Toy.level_codec) wide_2x3 Toy.FmtPng (10 ^ 310) 0
    = Raise OverflowError /\
  cv2_imencode (Backend := Toy.level_codec) ENCODE_PNG wide_2x3
    [IMWRITE_PNG_COMPRESSION; png_level (10 ^ 310)]
    = Ok [x01; x01; x01; x01; x01; x01; x01; x01; x01] /\
  imencode (B := Toy.level_codec) wide_2x3 Toy.FmtPng (10 ^ 310) 0
    <> cv2_imencode (Backend := Toy.level_codec) ENCODE_PNG wide_2x3
         [IMWRITE_PNG_COMPRESSION; png_level (10 ^ 310)].
Proof.
  split; [discriminate|].
  assert (Hraise : imencode (B := Toy.level_codec) wide_2x3 Toy.FmtPng (10 ^ 310) 0
                   = Raise OverflowError) by (vm_compute; reflexivity).
  assert (Hlevel : cv2_imencode (Backend := Toy.level_codec) ENCODE_PNG wide_2x3
                     [IMWRITE_PNG_COMPRESSION; png_level (10 ^ 310)]
                   = Ok [x01; x01; x01; x01; x01; x01; x01; x01; x01])
    by (vm_compute; reflexivity).
  split; [exact Hraise|]. split; [exact Hlevel|].
  rewrite Hraise, Hlevel. discriminate.
Qed.

(** ** draw_text *)

(** C9: without wrapping the font argument is not used: two calls that
    differ in the font only give the same result, and with a tuple colour
    that result is the backend's rendering in the default font. *)
Theorem draw_text_font_unused_without_wrap `{B : Backend} (img : ndarray)
    (label : string) (position : position_arg) (col : color_arg)
    (scale_factor : Q) (thickness font1 font2 : Z) :
  draw_text img label position col scale_factor thickness font1 false
    = draw_text img label position col scale_factor thickness font2 false /\
  forall c, draw_text img label position (ColorTuple c) scale_factor thickness font1 false
    = putText img label (as_tuple position) FONT_HERSHEY_DUPLEX scale_factor c
        thickness None.
Proof. split; [reflexivity | intros c; reflexivity]. Qed.

(** ** imread *)

(** C10: an argument that is neither a [str] nor an [io.BufferedReader] fails
    the type assertion, an [io.BytesIO] among them; a path is opened and
    read, a reader is read, and the content goes to [imdecode]. *)
Theorem imread_type_guard `{B : Backend} (w : world) (pixel_format : Z) :
  (forall o, type_of o <> ClsStr -> type_of o <> ClsBufferedReader ->
     imread w o pixel_format = Raise AssertionError) /\
  (forall p, imread w (OStr p) pixel_format =
     match files w !! p with
     | Some content => imdecode content pixel_format
     | None => Raise FileNotFoundError
     end) /\
  (forall content, imread w (OBufferedReader content) pixel_format
     = imdecode content pixel_format) /\
  (forall content, imread w (OBytesIO content) pixel_format
     = Raise AssertionError).
Proof.
  split; [|split; [|split]].
  - intros o Hs Hr. by destruct o.
  - intros p. unfold imread; simpl. by destruct (files w !! p).
  - reflexivity.
  - reflexivity.
Qed.

Lemma imread_type_guard_witness :
  type_of (OBytes [x2a]) <> ClsStr /\
  type_of (OBytes [x2a]) <> ClsBufferedReader /\
  imread (B := Toy.backend) sample_world (OBytes [x2a]) 0 = Raise AssertionError.
Proof.
  split; [discriminate|]. split; [discriminate|].
  apply (proj1 (imread_type_guard (B := Toy.backend) sample_world 0));
    discriminate.
Defined.

(** ** imwrite *)

(** C5: when the target path (with the extension appended where needed)
    names an existing file and overwriting is off, [imwrite] raises
    [FileExistsError] and the file system is exactly what it was. *)
Theorem imwrite_existing_target_untouched `{B : Backend} (w : world)
    (img : ndarray) (img_path : string) (encode_type : format)
    (quality pixel_format : Z) :
  is_Some (files w !! target_path img_path encode_type) ->
  imwrite w img (OStr img_path) encode_type quality pixel_format false
    = (Raise FileExistsError, w).
Proof.
  intros Hex. unfold imwrite, isfile; simpl.
  by rewrite bool_decide_eq_true_2.
Qed.

Lemma imwrite_existing_target_untouched_witness :
  is_Some (files sample_world !! target_path (B := Toy.backend) "photo" Toy.FmtJpeg) /\
  imwrite (B := Toy.backend) sample_world wide_2x3 (OStr "photo") Toy.FmtJpeg 95 0 false
    = (Raise FileExistsError, sample_world).
Proof.
  assert (Hex : is_Some (files sample_world
                  !! target_path (B := Toy.backend) "photo" Toy.FmtJpeg))
    by (vm_compute; eauto).
  split; [exact Hex|].
  exact (imwrite_existing_target_untouched (B := Toy.backend)
           sample_world wide_2x3 "photo" Toy.FmtJpeg 95 0 Hex).
Defined.

(** With overwriting on, or a fresh target, and a path that can be opened,
    the file is replaced by the encoded buffer. *)
Lemma imwrite_writes_encoding `{B : Backend} (w w1 : world) (img : ndarray)
    (img_path : string) (encode_type : format) (quality pixel_format : Z)
    (over_write : bool) (buffer : bytes) :
  isfile w (target_path img_path encode_type) && negb over_write = false ->
  open_wb w (target_path img_path encode_type) = Ok w1 ->
  imencode img encode_type quality pixel_format = Ok buffer ->
  imwrite w img (OStr img_path) encode_type quality pixel_format over_write
    = (Ok tt, write_file w1 (target_path img_path encode_type) buffer).
Proof.
  intros Hfree Hopen Henc. unfold imwrite; simpl. by rewrite Hfree, Hopen, Henc.
Qed.

(** ** resize *)

Section ResizeFacts.
Context `{B : Backend}.
Import PyVal.

Lemma resize_nothing_given (img : ndarray) (interpolation : option Z) :
  resize img VNone VNone interpolation = Ok img.
Proof. reflexivity. Qed.

Lemma resize_both_negative (img : ndarray) (w h : Z) (interpolation : option Z) :
  w < 0 -> h < 0 -> resize img (VInt w) (VInt h) interpolation = Ok img.
Proof.
  intros Hw Hh. unfold resize; simpl.
  destruct (Z.eqb_spec w 0); [lia|]. destruct (Z.eqb_spec h 0); [lia|]. simpl.
  destruct (Z.ltb_spec 0 w); [lia|]. destruct (Z.ltb_spec 0 h); [lia|]. done.
Qed.

Lemma resize_both_given (img : ndarray) (w h : Z) (interpolation : option Z) :
  0 < w -> 0 < h ->
  resize img (VInt w) (VInt h) interpolation = cv2_resize img (w, h) interpolation.
Proof.
  intros Hw Hh. unfold resize; simpl.
  destruct (Z.eqb_spec w 0); [lia|]. destruct (Z.eqb_spec h 0); [lia|]. simpl.
  destruct (Z.ltb_spec 0 w); [|lia]. simpl.
  destruct (Z.leb_spec w 0); [lia|]. destruct (Z.leb_spec h 0); [lia|]. done.
Qed.

Lemma resize_nonpositive_width_alone (img : ndarray) (z : Z)
    (interpolation : option Z) :
  z <= 0 -> resize img (VInt z) VNone interpolation = Raise TypeError.
Proof.
  intros Hz. unfold resize; simpl.
  destruct (Z.eqb_spec z 0) as [->|Hne]; simpl; [done|].
  destruct (Z.ltb_spec 0 z); [lia|]. simpl.
  destruct (Z.leb_spec z 0); [done|lia].
Qed.

End ResizeFacts.

(** C4: leaving both dimensions out returns the input, but a zero or
    negative width with the height left out is not treated as left out:
    the call passes the first test, divides [None] by the old height and
    raises [TypeError]. *)
Theorem resize_nonpositive_width_not_as_absent `{B : Backend} (img : ndarray)
    (z : Z) (interpolation : option Z) :
  z <= 0 ->
  resize img VNone VNone interpolation = Ok img /\
  resize img (VInt z) VNone interpolation = Raise TypeError.
Proof.
  intros Hz. split.
  - apply resize_nothing_given.
  - by apply resize_nonpositive_width_alone.
Qed.

Lemma resize_nonpositive_width_not_as_absent_witness :
  -5 <= 0 /\
  resize (B := Toy.backend) wide_2x3 VNone VNone None = Ok wide_2x3 /\
  resize (B := Toy.backend) wide_2x3 (VInt (-5)) VNone None = Raise TypeError.
Proof.
  split; [lia|].
  apply (resize_nonpositive_width_not_as_absent (B := Toy.backend)
           wide_2x3 (-5) None).
  lia.
Defined.

(** ** crop_scale *)

Section CropScaleFacts.
Context `{B : Backend}.

Lemma crop_scale_zero_box_no_size (img : ndarray) :
  crop_scale img (box_of_ints (0, 0, 0, 0)) VNone
    = Ok (crop img (box_of_ints (0, 0, Z.of_nat (width img), height img))).
Proof. reflexivity. Qed.

Lemma crop_scale_int_size (img : ndarray) (b : box) (n : Z) :
  n <> 0 -> numpy_any b = true ->
  crop_scale img b (VInt n) = resize (crop img b) (VInt n) VNone None.
Proof.
  intros Hn Hb. unfold crop_scale. rewrite Hb; simpl.
  by destruct (Z.eqb_spec n 0).
Qed.

End CropScaleFacts.

(** C3: with a (width, height) pair as [output_size] the pair is handed to
    [resize] as its width, whose comparison with 0 raises [TypeError]: no
    buffer of the requested dimensions is returned, whatever the box. *)
Theorem crop_scale_pair_size_raises `{B : Backend} (img : ndarray) (b : box)
    (out_w out_h : Z) :
  crop_scale img b (VTuple [out_w; out_h]) = Raise TypeError.
Proof. reflexivity. Qed.

(** ** zoom and rotate_crop *)

Section WarpFacts.
Context `{B : Backend}.

Lemma check_center_default (w h : Z) : check_center VNone w h = Ok (w / 2, h / 2).
Proof. reflexivity. Qed.

(** [zoom] hands the backend (width, height) and keeps the canvas. *)
Lemma zoom_keeps_canvas (img : ndarray) (zoom_level : float) :
  0 < height img -> 0 < Z.of_nat (width img) ->
  exists out, zoom img zoom_level VNone = Ok out /\ shape out = shape img.
Proof.
  intros Hh Hw. unfold zoom; simpl.
  destruct (zoom_level =? 1)%float; [by eexists|].
  destruct (warpAffine_shape img
              (getRotationMatrix2D (Z.of_nat (width img) / 2,
                                    Z.of_nat (length (rows img)) / 2) 0 zoom_level)
              (Z.of_nat (width img)) (height img)) as (out & Hout & Hs);
    try done.
  exists out. split; [exact Hout | by rewrite Hs].
Qed.

End WarpFacts.

(** C2: [rotate_crop] hands the backend the size (h, w) where the backend
    reads (width, height): for every angle and every accepted centre the
    result has as many rows as the source has columns and as many columns
    as the source has rows. *)
Theorem rotate_crop_canvas_transposed `{B : Backend} (img : ndarray)
    (angle : float) (center : pyval) (c : Z * Z) :
  0 < height img -> 0 < Z.of_nat (width img) ->
  center_type_ok center = true ->
  check_center center (Z.of_nat (width img)) (height img) = Ok c ->
  exists out, rotate_crop img angle center = Ok out /\
              shape out = (Z.of_nat (width img), height img,
                           Z.of_nat (channels img)).
Proof.
  intros Hh Hw Hty Hc. unfold rotate_crop. rewrite Hty; simpl.
  change (Z.of_nat (length (rows img))) with (height img). rewrite Hc; simpl.
  destruct (warpAffine_shape img (getRotationMatrix2D c (- angle)%float 1)
              (height img) (Z.of_nat (width img))) as (out & Hout & Hs);
    try done.
  exists out. split; [exact Hout | exact Hs].
Qed.

Lemma rotate_crop_canvas_transposed_witness :
  0 < height wide_2x3 /\ 0 < Z.of_nat (width wide_2x3) /\
  center_type_ok (VTuple [1; 1]) = true /\
  check_center (VTuple [1; 1]) (Z.of_nat (width wide_2x3)) (height wide_2x3)
    = Ok (1, 1) /\
  shape wide_2x3 = (2, 3, 1) /\
  exists out, rotate_crop (B := Toy.backend) wide_2x3 0 (VTuple [1; 1]) = Ok out /\
              shape out = (3, 2, 1).
Proof.
  repeat (split; [reflexivity|]).
  apply (rotate_crop_canvas_transposed (B := Toy.backend) wide_2x3 0
           (VTuple [1; 1]) (1, 1)); reflexivity.
Defined.

(** ** Further facts about the model *)

(** For any box of numbers that is not all zero the bounds are rounded
    after clamping. *)
Lemma crop_rounds_after_clamping (img : ndarray) (x y w h : Q) :
  numpy_any (x, y, w, h) = true ->
  crop img (x, y, w, h) =
    let W := inject_Z (Z.of_nat (width img)) in
    let x' := py_round (py_max x 0%Q) in
    let y' := py_round (py_max y 0%Q) in
    getitem2 img (y', y' + py_round (py_min h W)) (x', x' + py_round (py_min w W)).
Proof. intros Hany. unfold crop. by rewrite Hany. Qed.

Lemma crop_all_zero (img : ndarray) (b : box) :
  numpy_any b = false -> crop img b = img.
Proof. intros Hany. unfold crop. by rewrite Hany. Qed.

Lemma getitem2_wf (img : ndarray) (rs cs : Z * Z) :
  wf_ndarray img -> wf_ndarray (getitem2 img rs cs).
Proof.
  unfold wf_ndarray, getitem2, py_slice, slice_bounds; simpl. intros Hwf.
  apply Forall_map, Forall_take, Forall_drop.
  eapply Forall_impl; [exact Hwf|].
  intros r [Hlen Hpx]; simpl. split.
  - unfold pixel in *. rewrite length_take, length_drop, !Hlen.
    unfold slice_index.
    destruct (Z.ltb_spec cs.1 0), (Z.ltb_spec cs.2 0); lia.
  - by apply Forall_take, Forall_drop.
Qed.

Lemma crop_wf (img : ndarray) (b : box) : wf_ndarray img -> wf_ndarray (crop img b).
Proof.
  intros Hwf. unfold crop. destruct (negb (numpy_any b)); [done|].
  destruct b as [[[x y] w] h]; simpl. by apply getitem2_wf.
Qed.


Lemma crop_zero_box_identity_aux (img : ndarray) :
  crop img (box_of_ints (0, 0, 0, 0)) = img.
Proof. reflexivity. Qed.

(** * Further properties of the adapter *)

(** ** Slices with in-range bounds *)

Lemma py_slice_inside {A} (l : list A) (a b : Z) :
  0 <= a -> a <= b -> b <= Z.of_nat (length l) ->
  py_slice l a b = take (Z.to_nat (b - a)) (drop (Z.to_nat a) l).
Proof.
  intros Ha Hab Hb. unfold py_slice, slice_bounds, slice_index.
  destruct (Z.ltb_spec a 0), (Z.ltb_spec b 0); try lia.
  by rewrite !Z.min_l by lia.
Qed.

Lemma py_slice_whole {A} (l : list A) (b : Z) :
  Z.of_nat (length l) <= b -> py_slice l 0 b = l.
Proof.
  intros Hb. unfold py_slice, slice_bounds, slice_index.
  destruct (Z.ltb_spec b 0); [lia|]. simpl.
  rewrite (Z.min_r b), (Z.min_l 0), Z.sub_0_r, Nat2Z.id by lia.
  apply firstn_all.
Qed.

Lemma py_slice_empty {A} (l : list A) (a : Z) : py_slice l a a = [].
Proof.
  unfold py_slice, slice_bounds. by rewrite Z.sub_diag.
Qed.

Lemma pixel_at_getitem2 (img : ndarray) (x y w h i j : Z) :
  wf_ndarray img ->
  0 <= x -> 0 <= y -> 0 <= w -> 0 <= h ->
  x + w <= Z.of_nat (width img) -> y + h <= height img ->
  0 <= i < h -> 0 <= j < w ->
  pixel_at (getitem2 img (y, y + h) (x, x + w)) i j = pixel_at img (y + i) (x + j).
Proof.
  intros Hwf Hx Hy Hw Hh Hxw Hyh Hi Hj. unfold pixel_at, getitem2, height in *; simpl.
  rewrite py_slice_inside by lia.
  change (map ?f ?l) with (f <$> l). rewrite list_lookup_fmap.
  replace (y + h - y) with h by lia.
  rewrite lookup_take_lt, lookup_drop by lia.
  replace (Z.to_nat y + Z.to_nat i)%nat with (Z.to_nat (y + i)) by lia.
  destruct (rows img !! Z.to_nat (y + i)) as [row|] eqn:Hrow; simpl; [|done].
  assert (Hlen : length row = width img).
  { eapply Forall_lookup_1 in Hwf as [Hlen _]; [|exact Hrow]. exact Hlen. }
  rewrite py_slice_inside by lia.
  replace (x + w - x) with w by lia.
  rewrite lookup_take_lt, lookup_drop by lia.
  f_equal. lia.
Qed.

(** ** crop on boxes inside the buffer *)

(** X1: [crop] keeps buffers well formed: every row of the result has the
    width the result announces and every pixel keeps its channels. *)
Theorem crop_keeps_well_formed (img : ndarray) (b : box) :
  wf_ndarray img -> wf_ndarray (crop img b).
Proof. apply crop_wf. Qed.

Lemma crop_keeps_well_formed_witness :
  wf_ndarray tall_3x2 /\ wf_ndarray (crop tall_3x2 (box_of_ints (1, 1, 5, 1))).
Proof.
  assert (Hwf : wf_ndarray tall_3x2)
    by (repeat (constructor; [split; [reflexivity|repeat constructor]|]); constructor).
  split; [exact Hwf|].
  exact (crop_keeps_well_formed tall_3x2 (box_of_ints (1, 1, 5, 1)) Hwf).
Defined.

(** X2: for a box with positive width that lies inside the buffer and whose
    height does not exceed the buffer's width, [crop] returns a buffer of
    exactly h rows and w columns whose pixel (i, j) is the source pixel
    (y + i, x + j). *)
Theorem crop_inside (img : ndarray) (x y w h : Z) :
  wf_ndarray img ->
  0 <= x -> 0 <= y -> 0 < w -> 0 <= h ->
  x + w <= Z.of_nat (width img) -> y + h <= height img ->
  h <= Z.of_nat (width img) ->
  shape (crop img (box_of_ints (x, y, w, h))) = (h, w, Z.of_nat (channels img)) /\
  forall i j, 0 <= i < h -> 0 <= j < w ->
    pixel_at (crop img (box_of_ints (x, y, w, h))) i j
      = pixel_at img (y + i) (x + j).
Proof.
  intros Hwf Hx Hy Hw Hh Hxw Hyh HhW.
  rewrite crop_clamps_height_against_width_aux by (intros [= _ _ -> _]; lia).
  rewrite !Z.max_l, !Z.min_l by lia. split.
  - unfold shape, getitem2, height in *; simpl.
    rewrite length_map, py_slice_length.
    unfold slice_bounds, slice_index; simpl.
    destruct (Z.ltb_spec y 0), (Z.ltb_spec (y + h) 0),
             (Z.ltb_spec x 0), (Z.ltb_spec (x + w) 0); try lia.
    rewrite !Z.min_l, !Z2Nat.id by lia. do 2 f_equal; lia.
  - intros i j Hi Hj. by apply pixel_at_getitem2; try lia.
Qed.

Lemma crop_inside_witness :
  shape (crop tall_3x2 (box_of_ints (1, 1, 1, 2))) = (2, 1, 1) /\
  pixel_at (crop tall_3x2 (box_of_ints (1, 1, 1, 2))) 1 0 = Some [21].
Proof.
  assert (Hwf : wf_ndarray tall_3x2)
    by (repeat (constructor; [split; [reflexivity|repeat constructor]|]); constructor).
  destruct (crop_inside tall_3x2 1 1 1 2 Hwf) as [Hs Hp];
    [lia| lia| lia| lia| simpl; lia| unfold height; simpl; lia| simpl; lia|].
  split; [exact Hs|].
  rewrite (Hp 1 0) by lia. reflexivity.
Defined.

(** X3: with a non-negative height request the result of [crop] never has
    more rows than the source has columns. *)
Theorem crop_rows_at_most_source_width (img : ndarray) (x y w h : Z) :
  (x, y, w, h) <> (0, 0, 0, 0) -> 0 <= h ->
  height (crop img (box_of_ints (x, y, w, h))) <= Z.of_nat (width img).
Proof. apply crop_rows_bounded_by_width. Qed.

Lemma crop_rows_at_most_source_width_witness :
  (0, 0, 2, 3) <> (0, 0, 0, 0) /\ 0 <= 3 /\
  height (crop tall_3x2 (box_of_ints (0, 0, 2, 3))) <= 2.
Proof.
  split; [discriminate|]. split; [lia|].
  apply (crop_rows_at_most_source_width tall_3x2 0 0 2 3); [discriminate|lia].
Defined.

(** X4: a box of zero width and height placed anywhere but the origin is
    not the sentinel: [crop] returns an empty buffer, not the input. *)
Theorem crop_empty_box_off_origin (img : ndarray) (x y : Z) :
  (x, y) <> (0, 0) ->
  crop img (box_of_ints (x, y, 0, 0)) = zeros 0 0 (channels img).
Proof.
  intros Hxy.
  rewrite crop_clamps_height_against_width_aux by (intros [= -> ->]; done).
  rewrite !Z.min_l, !Z.add_0_r by lia.
  unfold getitem2, zeros; simpl. rewrite py_slice_empty; simpl.
  f_equal. unfold slice_bounds; simpl. by rewrite Z.sub_diag.
Qed.

Lemma crop_empty_box_off_origin_witness :
  (1, 0) <> (0, 0) /\
  crop tall_3x2 (box_of_ints (1, 0, 0, 0)) = zeros 0 0 1 /\
  crop tall_3x2 (box_of_ints (0, 0, 0, 0)) = tall_3x2.
Proof.
  split; [discriminate|]. split; [|reflexivity].
  apply (crop_empty_box_off_origin tall_3x2 1 0). discriminate.
Defined.

(** X5: a corner left of or above the buffer is moved onto its edge while
    width and height are kept as requested: the part of the box outside
    the buffer is not cut off the size. *)
Theorem crop_negative_corner (img : ndarray) (x y w h : Z) :
  (w, h) <> (0, 0) ->
  crop img (box_of_ints (x, y, w, h))
    = crop img (box_of_ints (Z.max x 0, Z.max y 0, w, h)).
Proof.
  intros Hwh.
  rewrite !crop_clamps_height_against_width_aux
    by (intros [= _ _ -> ->]; done).
  by rewrite (Z.max_l (Z.max x 0) 0), (Z.max_l (Z.max y 0) 0) by lia.
Qed.

Lemma crop_negative_corner_witness :
  (2, 1) <> (0, 0) /\
  crop tall_3x2 (box_of_ints (-1, -1, 2, 1))
    = crop tall_3x2 (box_of_ints (0, 0, 2, 1)).
Proof.
  split; [discriminate|].
  apply (crop_negative_corner tall_3x2 (-1) (-1) 2 1). discriminate.
Defined.

(** ** crop_margin *)

Lemma crop_margin_ints (img : ndarray) (m x y w h : Z) :
  crop_margin img (inject_Z m) (box_of_ints (x, y, w, h))
    = crop img (box_of_ints (x - m, y - m, w + m, h + m)).
Proof.
  unfold crop_margin, box_of_ints, Qminus.
  by rewrite <- !inject_Z_opp, <- !inject_Z_plus.
Qed.

(** X6: with an integer margin m no larger than x and y, [crop_margin]
    moves the top-left corner out by m and leaves the bottom-right corner
    at (x + w, y + h): the margin is added on the left and on top only. *)
Theorem crop_margin_left_top_only (img : ndarray) (m x y w h : Z) :
  0 < m -> m <= x -> m <= y -> 0 <= w -> 0 <= h ->
  w + m <= Z.of_nat (width img) -> h + m <= Z.of_nat (width img) ->
  crop_margin img (inject_Z m) (box_of_ints (x, y, w, h))
    = getitem2 img (y - m, y + h) (x - m, x + w).
Proof.
  intros Hm Hx Hy Hw Hh HwW HhW.
  rewrite crop_margin_ints.
  rewrite crop_clamps_height_against_width_aux by (intros [= _ _ ? _]; lia).
  rewrite !Z.max_l, !Z.min_l by lia.
  f_equal; f_equal; lia.
Qed.

Lemma crop_margin_left_top_only_witness :
  crop_margin wide_2x3 (inject_Z 1) (box_of_ints (1, 1, 1, 1))
    = getitem2 wide_2x3 (0, 2) (0, 2).
Proof.
  apply (crop_margin_left_top_only wide_2x3 1 1 1 1 1); simpl; lia.
Defined.

(** ** crop_center on sizes that fit *)

Lemma py_round_half_bounds (n : Z) :
  n / 2 <= py_round (inject_Z n / 2)%Q <= (n + 1) / 2.
Proof.
  unfold py_round.
  assert (Hf : Qfloor (inject_Z n / 2)%Q = n / 2).
  { unfold Qfloor, Qdiv, Qmult, Qinv, inject_Z; simpl. by rewrite Z.mul_1_r. }
  rewrite Hf.
  destruct (Qcompare _ _) eqn:Hc.
  - destruct (Z.even (n / 2));
      unfold Qcompare, Qminus, Qplus, Qopp, Qdiv, Qmult, Qinv, inject_Z in Hc;
      simpl in Hc; apply Z.compare_eq_iff in Hc;
      Z.to_euclidean_division_equations; lia.
  - Z.to_euclidean_division_equations; lia.
  - unfold Qcompare, Qminus, Qplus, Qopp, Qdiv, Qmult, Qinv, inject_Z in Hc;
      simpl in Hc; apply Z.compare_gt_iff in Hc;
      Z.to_euclidean_division_equations; lia.
Qed.

Lemma getitem2_shape_inside (img : ndarray) (x y w h : Z) :
  0 <= x -> 0 <= y -> 0 <= w -> 0 <= h ->
  x + w <= Z.of_nat (width img) -> y + h <= height img ->
  shape (getitem2 img (y, y + h) (x, x + w)) = (h, w, Z.of_nat (channels img)).
Proof.
  intros Hx Hy Hw Hh Hxw Hyh. unfold shape, getitem2, height in *; simpl.
  rewrite length_map, py_slice_length.
  unfold slice_bounds, slice_index; simpl.
  destruct (Z.ltb_spec y 0), (Z.ltb_spec (y + h) 0),
           (Z.ltb_spec x 0), (Z.ltb_spec (x + w) 0); try lia.
  rewrite !Z.min_l, !Z2Nat.id by lia. do 2 f_equal; lia.
Qed.

(** X7: when the requested size is positive, smaller than the source in
    both dimensions and its height does not exceed the source width,
    [crop_center] returns exactly that size, cut at an offset that leaves
    margins differing by at most one pixel on opposite sides. *)
Theorem crop_center_fits (img : ndarray) (width_crop height_crop : Z) :
  0 < width_crop < Z.of_nat (width img) ->
  0 < height_crop < height img ->
  height_crop <= Z.of_nat (width img) ->
  exists x y,
    crop_center img (width_crop, height_crop)
      = Ok (getitem2 img (y, y + height_crop) (x, x + width_crop)) /\
    shape (getitem2 img (y, y + height_crop) (x, x + width_crop))
      = (height_crop, width_crop, Z.of_nat (channels img)) /\
    0 <= x /\ 0 <= y /\
    -1 <= (Z.of_nat (width img) - width_crop - x) - x <= 1 /\
    -1 <= (height img - height_crop - y) - y <= 1.
Proof.
  intros Hw Hh HhW.
  pose proof (py_round_half_bounds (Z.of_nat (width img) - width_crop)) as Hx.
  pose proof (py_round_half_bounds (height img - height_crop)) as Hy.
  exists (py_round (inject_Z (Z.of_nat (width img) - width_crop) / 2)%Q),
         (py_round (inject_Z (height img - height_crop) / 2)%Q).
  split; [|split].
  - unfold crop_center.
    change (shape img)
      with (height img, Z.of_nat (width img), Z.of_nat (channels img)).
    cbv beta iota.
    destruct (Z.leb_spec (Z.of_nat (width img)) width_crop); [lia|].
    destruct (Z.leb_spec (height img) height_crop); [lia|].
    cbv beta iota delta [orb]. f_equal.
    rewrite crop_clamps_height_against_width_aux by (intros [= _ _ ? _]; lia).
    rewrite !Z.max_l, !Z.min_l
      by (try lia; Z.to_euclidean_division_equations; lia).
    done.
  - apply getitem2_shape_inside;
      try lia; Z.to_euclidean_division_equations; lia.
  - repeat split; Z.to_euclidean_division_equations; lia.
Qed.

Lemma crop_center_fits_witness :
  exists x y,
    crop_center (zeros 7 6 3) (3, 4)
      = Ok (getitem2 (zeros 7 6 3) (y, y + 4) (x, x + 3)) /\
    shape (getitem2 (zeros 7 6 3) (y, y + 4) (x, x + 3)) = (4, 3, 3) /\
    0 <= x /\ 0 <= y /\
    -1 <= (6 - 3 - x) - x <= 1 /\ -1 <= (7 - 4 - y) - y <= 1.
Proof.
  apply (crop_center_fits (zeros 7 6 3) 3 4); unfold height; simpl; lia.
Defined.

(** X14: [crop_center] raises [ValueError] exactly when the requested width
    reaches the source width or the requested height reaches the source
    height; a size equal to the source is refused. *)
Theorem crop_center_error_iff (img : ndarray) (width_crop height_crop : Z) :
  crop_center img (width_crop, height_crop) = Raise ValueError <->
  Z.of_nat (width img) <= width_crop \/ height img <= height_crop.
Proof. apply crop_center_raises_iff. Qed.

(** ** crop_scale with its default arguments *)

Lemma map_py_slice_whole (l : list (list pixel)) (n : nat) :
  Forall (fun r => length r = n) l ->
  map (fun r => py_slice r 0 (0 + Z.of_nat n)) l = l.
Proof.
  induction 1 as [|r l Hr _ IH]; simpl; [done|].
  rewrite IH. f_equal. apply py_slice_whole. lia.
Qed.

(** X8: on a well-formed buffer that is at least as wide as it is tall,
    [crop_scale] with the all-zero box and no output size returns the
    buffer unchanged. *)
Theorem crop_scale_default_identity `{B : Backend} (img : ndarray) :
  wf_ndarray img -> height img <= Z.of_nat (width img) ->
  crop_scale img (box_of_ints (0, 0, 0, 0)) VNone = Ok img.
Proof.
  intros Hwf Hle. rewrite crop_scale_zero_box_no_size. f_equal.
  destruct (decide ((0, 0, Z.of_nat (width img), height img) = (0, 0, 0, 0)))
    as [Heq|Hne].
  - rewrite Heq. apply crop_zero_box_identity_aux.
  - rewrite crop_clamps_height_against_width_aux by done.
    rewrite !Z.max_l, Z.min_id, Z.min_l by lia.
    destruct img as [rs w c]. unfold getitem2, height in *; simpl in *.
    f_equal.
    + rewrite py_slice_whole by lia. apply map_py_slice_whole.
      eapply Forall_impl; [exact Hwf|]. by intros r [Hr _].
    + unfold slice_bounds, slice_index; simpl.
      destruct (Z.ltb_spec (0 + Z.of_nat w) 0); lia.
Qed.

Lemma crop_scale_default_identity_witness :
  crop_scale (B := Toy.backend) wide_2x3 (box_of_ints (0, 0, 0, 0)) VNone
    = Ok wide_2x3.
Proof.
  apply (crop_scale_default_identity (B := Toy.backend) wide_2x3).
  - repeat (constructor; [split; [reflexivity|repeat constructor]|]); constructor.
  - unfold height; simpl; lia.
Defined.

(** X9: on a buffer that is taller than wide the same call does not return
    the whole buffer: only as many rows as the buffer has columns come
    back. *)
Theorem crop_scale_default_cuts_tall `{B : Backend} (img : ndarray) :
  Z.of_nat (width img) < height img ->
  exists out, crop_scale img (box_of_ints (0, 0, 0, 0)) VNone = Ok out /\
              height out = Z.of_nat (width img).
Proof.
  intros Htall. rewrite crop_scale_zero_box_no_size. eexists. split; [done|].
  rewrite crop_clamps_height_against_width_aux
    by (intros [= _ ?]; unfold height in *; lia).
  unfold height, getitem2 in *; simpl.
  rewrite length_map, py_slice_length.
  unfold slice_bounds, slice_index; simpl.
  match goal with
  | |- context [?a <? 0] => destruct (Z.ltb_spec a 0)
  end; lia.
Qed.

Lemma crop_scale_default_cuts_tall_witness :
  exists out,
    crop_scale (B := Toy.backend) tall_3x2 (box_of_ints (0, 0, 0, 0)) VNone = Ok out /\
    height out = 2.
Proof.
  apply (crop_scale_default_cuts_tall (B := Toy.backend) tall_3x2).
  unfold height; simpl; lia.
Defined.

(** ** resize with both dimensions given *)

(** X10: two negative dimensions are taken as nothing given: the input
    comes back unchanged and the backend is not called. *)
Theorem resize_two_negatives_unchanged `{B : Backend} (img : ndarray)
    (w h : Z) (interpolation : option Z) :
  w < 0 -> h < 0 -> resize img (VInt w) (VInt h) interpolation = Ok img.
Proof. apply resize_both_negative. Qed.

Lemma resize_two_negatives_unchanged_witness :
  resize (B := Toy.backend) wide_2x3 (VInt (-1)) (VInt (-7)) None = Ok wide_2x3.
Proof.
  apply (resize_two_negatives_unchanged (B := Toy.backend) wide_2x3 (-1) (-7) None);
    lia.
Defined.

(** X11: with two positive integer dimensions a non-empty buffer is resized
    to exactly h rows and w columns, whatever its aspect ratio, and keeps
    its channels. *)
Theorem resize_exact_dimensions `{B : Backend} (img : ndarray) (w h : Z)
    (interpolation : option Z) :
  0 < height img -> 0 < Z.of_nat (width img) -> 0 < w -> 0 < h ->
  exists out, resize img (VInt w) (VInt h) interpolation = Ok out /\
              shape out = (h, w, Z.of_nat (channels img)).
Proof.
  intros Hih Hiw Hw Hh. rewrite resize_both_given by done.
  by apply cv2_resize_shape.
Qed.

Lemma resize_exact_dimensions_witness :
  exists out, resize (B := Toy.backend) wide_2x3 (VInt 5) (VInt 4) None = Ok out /\
              shape out = (4, 5, 1).
Proof.
  apply (resize_exact_dimensions (B := Toy.backend) wide_2x3 5 4 None);
    unfold height; simpl; lia.
Defined.

(** X12: asking for a width alone on a buffer without columns divides by
    the old width and raises [ZeroDivisionError]. *)
Theorem resize_width_of_empty_rows `{B : Backend} (img : ndarray) (w : Z)
    (interpolation : option Z) :
  0 < w -> width img = 0%nat ->
  resize img (VInt w) VNone interpolation = Raise ZeroDivisionError.
Proof.
  intros Hw Hz. unfold resize; simpl. rewrite Hz.
  destruct (Z.eqb_spec w 0); [lia|]. simpl.
  destruct (Z.ltb_spec 0 w); [|lia]. simpl.
  destruct (Z.leb_spec w 0); [lia|]. reflexivity.
Qed.

Lemma resize_width_of_empty_rows_witness :
  resize (B := Toy.backend) (zeros 2 0 3) (VInt 5) VNone None
    = Raise ZeroDivisionError.
Proof.
  apply (resize_width_of_empty_rows (B := Toy.backend) (zeros 2 0 3) 5 None);
    [lia|reflexivity].
Defined.

(** ** imdecode *)

(** X13: for a buffer whose sniffed type is neither JPEG nor JPEG 2000 the
    requested pixel format has no influence on the decoded result. *)
Theorem imdecode_ignores_pixel_format `{B : Backend} (buffer : bytes)
    (ext : imgtype) (size : Z * Z) (pixel_format1 pixel_format2 : Z) :
  image_info buffer = Ok (ext, size) ->
  ext <> JPEG_FORMAT -> ext <> JPEG2000_FORMAT ->
  imdecode buffer pixel_format1 = imdecode buffer pixel_format2.
Proof.
  intros Hinfo Hj Hj2. unfold imdecode. rewrite Hinfo; simpl.
  assert (Hnot : ext ∉ [JPEG_FORMAT; JPEG2000_FORMAT])
    by (intros Hin; repeat (apply elem_of_cons in Hin as [->|Hin]; [done|]);
        by apply elem_of_nil in Hin).
  by rewrite !bool_decide_eq_false_2 by exact Hnot.
Qed.

Lemma imdecode_ignores_pixel_format_witness :
  imdecode (B := Toy.backend) [x01; x02] 0 = imdecode (B := Toy.backend) [x01; x02] 1.
Proof.
  apply (imdecode_ignores_pixel_format (B := Toy.backend) [x01; x02]
           Toy.TyPng (0, 0) 0 1); [reflexivity|discriminate|discriminate].
Defined.

(** A buffer whose header cannot be sniffed is not decoded at all: the
    error of [image_info] is the result. *)
Lemma imdecode_sniff_error `{B : Backend} (buffer : bytes) (e : exn)
    (pixel_format : Z) :
  image_info buffer = Raise e -> imdecode buffer pixel_format = Raise e.
Proof. intros Hinfo. unfold imdecode. by rewrite Hinfo. Qed.

(** ** The path written by imwrite *)

Lemma py_split_nonempty (sep : ascii) (s : string) : py_split sep s <> [].
Proof.
  destruct s as [|c rest]; simpl; [done|].
  destruct (Ascii.eqb c sep); [done|]. by destruct (py_split sep rest).
Qed.

Lemma py_split_suffix (p s : string) :
  py_split "." s = [s] ->
  exists front, front <> [] /\ py_split "." (p +:+ "." +:+ s) = front ++ [s].
Proof.
  intros Hs. induction p as [|c rest (front & Hne & IH)]; simpl.
  - exists [EmptyString]. change ("" +:+ s) with s. by rewrite Hs.
  - rewrite IH. destruct (Ascii.eqb c ".").
    + by exists (EmptyString :: front).
    + destruct front as [|f0 fr]; [done|]. by exists (String c f0 :: fr).
Qed.

Lemma last_piece_suffix (p s : string) :
  py_split "." s = [s] -> last_piece (py_split "." (p +:+ "." +:+ s)) = s.
Proof.
  intros Hs. destruct (py_split_suffix p s Hs) as (front & _ & ->).
  unfold last_piece. apply last_last.
Qed.

(** X15: the path that [imwrite] opens always ends in the extension of the
    format ("png" for PNG, "jpg" for everything else), and a path that
    already does is left as it is: adjusting twice changes nothing. *)
Theorem target_path_has_extension `{B : Backend} (img_path : string)
    (encode_type : format) :
  last_piece (py_split "." (target_path img_path encode_type))
    = (if decide (encode_type = ENCODE_PNG) then "png" else "jpg") /\
  target_path (target_path img_path encode_type) encode_type
    = target_path img_path encode_type.
Proof.
  assert (Hext : last_piece (py_split "." (target_path img_path encode_type))
                 = (if decide (encode_type = ENCODE_PNG) then "png" else "jpg")).
  { unfold target_path.
    destruct (String.eqb _ _) eqn:Heq; simpl.
    - apply String.eqb_eq in Heq. by rewrite <- Heq.
    - apply last_piece_suffix. by destruct (decide _). }
  split; [exact Hext|].
  unfold target_path at 1. rewrite Hext, String.eqb_refl. done.
Qed.

(** ** imwrite and the file system *)

Lemma filesystem_lookup_insert_eq (fs : filesystem) (p : string) (content : bytes) :
  <[p := content]> fs !! p = Some content.
Proof. unfold lookup, insert, filesystem_lookup, filesystem_insert; simpl.
  apply lookup_insert_eq. Qed.

Lemma filesystem_lookup_insert_ne (fs : filesystem) (p q : string)
    (content : bytes) :
  resolve fs q <> resolve fs p -> <[p := content]> fs !! q = fs !! q.
Proof.
  intros Hne. unfold lookup, insert, filesystem_lookup, filesystem_insert; simpl.
  by apply lookup_insert_ne.
Qed.

Lemma open_wb_ok (w : world) (p : string) :
  wb_error (files w) p = None ->
  open_wb w p = Ok {| files := <[p := []]> (files w); writers := writers w |}.
Proof. intros Hopen. unfold open_wb. by rewrite Hopen. Qed.

Section ImwriteFacts.
Context `{B : Backend}.

Lemma imwrite_path_cases (w : world) (img : ndarray) (img_path : string)
    (encode_type : format) (quality pixel_format : Z) (over_write : bool) :
  let p := target_path img_path encode_type in
  let opened := {| files := <[p := []]> (files w); writers := writers w |} in
  let r := imwrite w img (OStr img_path) encode_type quality pixel_format over_write in
  r = (Raise FileExistsError, w) \/
  (exists e, r = (Raise e, w)) \/
  (exists buffer, r = (Ok tt, write_file opened p buffer)) \/
  (exists e, r = (Raise e, opened)).
Proof.
  intros p opened r. subst p opened r. unfold imwrite, open_wb; simpl.
  destruct (isfile w _ && negb over_write); [by left|right].
  destruct (wb_error (files w) _) as [e|]; [left; by exists e|right].
  destruct (imencode img encode_type quality pixel_format) as [buffer|e].
  - left. by exists buffer.
  - right. by exists e.
Qed.

End ImwriteFacts.

(** X16: when the target is free or overwriting is on, the path can be
    opened for writing and the encoder succeeds, [imwrite] succeeds and
    [imread] of the adjusted path then decodes exactly the bytes that
    [imencode] produced. *)
Theorem imwrite_then_imread `{B : Backend} (w : world) (img : ndarray)
    (img_path : string) (encode_type : format) (quality pixel_format : Z)
    (over_write : bool) (buffer : bytes) (read_format : Z) :
  isfile w (target_path img_path encode_type) && negb over_write = false ->
  wb_error (files w) (target_path img_path encode_type) = None ->
  imencode img encode_type quality pixel_format = Ok buffer ->
  exists w',
    imwrite w img (OStr img_path) encode_type quality pixel_format over_write
      = (Ok tt, w') /\
    imread w' (OStr (target_path img_path encode_type)) read_format
      = imdecode buffer read_format.
Proof.
  intros Hfree Hopen Henc. eexists. split.
  - eapply imwrite_writes_encoding; [done|by apply open_wb_ok|done].
  - unfold imread, write_file; simpl. by rewrite filesystem_lookup_insert_eq.
Qed.

Lemma imwrite_then_imread_witness :
  exists w',
    imwrite (B := Toy.backend) sample_world wide_2x3 (OStr "photo") Toy.FmtJpeg 95 0 true
      = (Ok tt, w') /\
    imread (B := Toy.backend) w' (OStr "photo.jpg") 0
      = imdecode (B := Toy.backend) [x00] 0.
Proof.
  apply (imwrite_then_imread (B := Toy.backend) sample_world wide_2x3 "photo"
           Toy.FmtJpeg 95 0 true [x00] 0); [|reflexivity|reflexivity].
  unfold isfile. by rewrite andb_false_r.
Defined.

(** X17: whatever the outcome, [imwrite] to a path leaves every path that
    names another file than the adjusted target with the content it had,
    and touches no open writer. *)
Theorem imwrite_touches_target_only `{B : Backend} (w : world) (img : ndarray)
    (img_path : string) (encode_type : format) (quality pixel_format : Z)
    (over_write : bool) (other : string) :
  resolve (files w) other
    <> resolve (files w) (target_path img_path encode_type) ->
  let w' := (imwrite w img (OStr img_path) encode_type quality pixel_format
               over_write).2 in
  files w' !! other = files w !! other /\ writers w' = writers w.
Proof.
  intros Hother.
  destruct (imwrite_path_cases w img img_path encode_type quality pixel_format
              over_write) as [-> | [[e ->] | [[buffer ->] | [e ->]]]];
    simpl; split; try done;
    by rewrite ?filesystem_lookup_insert_ne by done.
Qed.

Lemma imwrite_touches_target_only_witness :
  resolve (files sample_world) "photo.jpg"
    <> resolve (files sample_world) (target_path (B := Toy.backend) "./other" Toy.FmtPng) /\
  files (imwrite (B := Toy.backend) sample_world wide_2x3 (OStr "./other")
           Toy.FmtPng 95 0 true).2 !! "./photo.jpg" = Some [x2a] /\
  files (imwrite (B := Toy.backend) sample_world wide_2x3 (OStr "./photo")
           Toy.FmtJpeg 95 0 true).2 !! "photo.jpg" = Some [x00].
Proof.
  assert (Hne : resolve (files sample_world) "./photo.jpg"
                <> resolve (files sample_world)
                     (target_path (B := Toy.backend) "./other" Toy.FmtPng))
    by discriminate.
  split; [discriminate|]. split; [|reflexivity].
  rewrite (proj1 (imwrite_touches_target_only (B := Toy.backend) sample_world
                    wide_2x3 "./other" Toy.FmtPng 95 0 true "./photo.jpg" Hne)).
  reflexivity.
Defined.

(** X18: the target is opened for writing before the image is encoded: when
    the target is free or overwriting is on, the path can be opened and the
    encoder fails, the encoder's error comes back and the target is left as
    an empty file. *)
Theorem imwrite_encode_failure_truncates `{B : Backend} (w : world)
    (img : ndarray) (img_path : string) (encode_type : format)
    (quality pixel_format : Z) (over_write : bool) (e : exn) :
  isfile w (target_path img_path encode_type) && negb over_write = false ->
  wb_error (files w) (target_path img_path encode_type) = None ->
  imencode img encode_type quality pixel_format = Raise e ->
  exists w',
    imwrite w img (OStr img_path) encode_type quality pixel_format over_write
      = (Raise e, w') /\
    files w' !! target_path img_path encode_type = Some [].
Proof.
  intros Hfree Hopen Henc. eexists. split.
  - unfold imwrite; simpl. by rewrite Hfree, (open_wb_ok _ _ Hopen), Henc.
  - simpl. by rewrite filesystem_lookup_insert_eq.
Qed.

Lemma imwrite_encode_failure_truncates_witness :
  exists w',
    imwrite (B := Toy.broken_codec) sample_world wide_2x3 (OStr "photo")
      Toy.FmtJpeg 95 0 true = (Raise BackendError, w') /\
    files w' !! "photo.jpg" = Some [].
Proof.
  apply (imwrite_encode_failure_truncates (B := Toy.broken_codec) sample_world
           wide_2x3 "photo" Toy.FmtJpeg 95 0 true BackendError);
    [|reflexivity|reflexivity].
  unfold isfile. by rewrite andb_false_r.
Defined.

(** X19: an argument that is neither a [str] nor an [io.BufferedWriter] fails
    the type assertion of [imwrite] and nothing is written. *)
Theorem imwrite_type_guard `{B : Backend} (w : world) (img : ndarray)
    (o : pyobj) (encode_type : format) (quality pixel_format : Z)
    (over_write : bool) :
  type_of o <> ClsStr -> type_of o <> ClsBufferedWriter ->
  imwrite w img o encode_type quality pixel_format over_write
    = (Raise AssertionError, w).
Proof. intros Hs Hw. by destruct o. Qed.

Lemma imwrite_type_guard_witness :
  type_of (OBufferedReader [x2a]) <> ClsStr /\
  type_of (OBufferedReader [x2a]) <> ClsBufferedWriter /\
  imwrite (B := Toy.backend) sample_world wide_2x3 (OBufferedReader [x2a])
    Toy.FmtJpeg 95 0 true = (Raise AssertionError, sample_world).
Proof.
  split; [discriminate|]. split; [discriminate|].
  apply (imwrite_type_guard (B := Toy.backend)); discriminate.
Defined.



(** X30: when the target is free or overwriting is on but the path cannot
    be opened for writing, the error of [open] comes back and nothing is
    created or changed. *)
Theorem imwrite_open_failure `{B : Backend} (w : world) (img : ndarray)
    (img_path : string) (encode_type : format) (quality pixel_format : Z)
    (over_write : bool) (e : exn) :
  isfile w (target_path img_path encode_type) && negb over_write = false ->
  wb_error (files w) (target_path img_path encode_type) = Some e ->
  imwrite w img (OStr img_path) encode_type quality pixel_format over_write
    = (Raise e, w).
Proof.
  intros Hfree Hopen. unfold imwrite, open_wb; simpl. by rewrite Hfree, Hopen.
Qed.

Lemma imwrite_open_failure_witness :
  imwrite (B := Toy.backend) sample_world wide_2x3 (OStr "missing/photo") Toy.FmtJpeg
    95 0 false = (Raise FileNotFoundError, sample_world).
Proof.
  apply (imwrite_open_failure (B := Toy.backend) sample_world wide_2x3
           "missing/photo" Toy.FmtJpeg 95 0 false FileNotFoundError); reflexivity.
Defined.

(** ** zoom and the centre checks *)

(** X21: a zoom level of 1 returns the input at once: the centre, even a
    tuple of the wrong length or outside the buffer, is not examined. *)
Theorem zoom_level_one_identity `{B : Backend} (img : ndarray) (center : pyval) :
  center_type_ok center = true -> zoom img 1 center = Ok img.
Proof. intros Hty. unfold zoom. by rewrite Hty. Qed.

Lemma zoom_level_one_identity_witness :
  center_type_ok (VTuple [99; -4; 7]) = true /\
  zoom (B := Toy.backend) wide_2x3 1 (VTuple [99; -4; 7]) = Ok wide_2x3.
Proof.
  split; [reflexivity|].
  apply (zoom_level_one_identity (B := Toy.backend) wide_2x3 (VTuple [99; -4; 7])).
  reflexivity.
Defined.

(** X22: for every other level and every accepted centre, [zoom] keeps the
    canvas: the result has the shape of the input. *)
Theorem zoom_same_shape `{B : Backend} (img : ndarray) (zoom_level : float)
    (center : pyval) (c : Z * Z) :
  0 < height img -> 0 < Z.of_nat (width img) ->
  center_type_ok center = true ->
  check_center center (Z.of_nat (width img)) (height img) = Ok c ->
  exists out, zoom img zoom_level center = Ok out /\ shape out = shape img.
Proof.
  intros Hh Hw Hty Hc. unfold zoom. rewrite Hty; simpl.
  destruct (zoom_level =? 1)%float; [by eexists|].
  change (Z.of_nat (length (rows img))) with (height img). rewrite Hc; simpl.
  destruct (warpAffine_shape img (getRotationMatrix2D c 0 zoom_level)
              (Z.of_nat (width img)) (height img)) as (out & Hout & Hs);
    try done.
  exists out. split; [exact Hout | by rewrite Hs].
Qed.

Lemma zoom_same_shape_witness :
  exists out, zoom (B := Toy.backend) wide_2x3 2 (VTuple [3; 0]) = Ok out /\
              shape out = shape wide_2x3.
Proof.
  apply (zoom_same_shape (B := Toy.backend) wide_2x3 2 (VTuple [3; 0]) (3, 0));
    reflexivity.
Defined.

Lemma check_center_long_tuple (c0 c1 c2 : Z) (l : list Z) (w h : Z) :
  check_center (VTuple (c0 :: c1 :: c2 :: l)) w h = Raise AssertionError.
Proof.
  unfold check_center.
  destruct (Z.eqb_spec (Z.of_nat (length (c0 :: c1 :: c2 :: l))) 2) as [Heq|Hne];
    [simpl in Heq; lia|done].
Qed.

(** A tuple centre passes the check exactly when it has two components
    within the closed ranges [0, w] and [0, h]. *)
Lemma check_center_tuple (l : list Z) (w h : Z) (c : Z * Z) :
  check_center (VTuple l) w h = Ok c <->
  exists c0 c1, l = [c0; c1] /\ c = (c0, c1) /\ 0 <= c0 <= w /\ 0 <= c1 <= h.
Proof.
  split.
  - destruct l as [|c0 [|c1 [|c2 l]]];
      [done|done| |by rewrite check_center_long_tuple].
    simpl.
    destruct (Z.leb_spec 0 c0), (Z.leb_spec c0 w),
             (Z.leb_spec 0 c1), (Z.leb_spec c1 h); simpl; try done.
    intros [= <-]. exists c0, c1. repeat split; done.
  - intros (c0 & c1 & -> & -> & Hc0 & Hc1). simpl.
    destruct (Z.leb_spec 0 c0), (Z.leb_spec c0 w),
             (Z.leb_spec 0 c1), (Z.leb_spec c1 h); try lia. done.
Qed.

Lemma check_center_error (center : pyval) (w h : Z) (e : exn) :
  check_center center w h = Raise e -> e = AssertionError.
Proof.
  destruct center as [| |f|l]; [done|done|done|].
  destruct l as [|c0 [|c1 [|c2 l]]];
    [by intros [= <-]|by intros [= <-]|
    |rewrite check_center_long_tuple; by intros [= <-]].
  simpl. destruct (_ && _); simpl; [done|]. by intros [= <-].
Qed.

Lemma rotate_crop_tuple `{B : Backend} (img : ndarray) (angle : float)
    (l : list Z) :
  rotate_crop img angle (VTuple l) =
    check_center (VTuple l) (Z.of_nat (width img)) (height img) ≫= fun c =>
      warpAffine img (getRotationMatrix2D c (- angle)%float 1)
        (height img, Z.of_nat (width img)).
Proof. reflexivity. Qed.

(** X23: [rotate_crop] rejects with [AssertionError], before the backend is
    called, every centre that is not [None] or a tuple, every tuple that
    does not have two components, and every pair outside the closed
    ranges 0..w and 0..h; a centre on the far edge is accepted. *)
Theorem rotate_crop_center_checked `{B : Backend} (img : ndarray) (angle : float)
    (center : pyval) :
  center <> VNone ->
  (forall c0 c1, center = VTuple [c0; c1] ->
                 ~ (0 <= c0 <= Z.of_nat (width img) /\ 0 <= c1 <= height img)) ->
  rotate_crop img angle center = Raise AssertionError.
Proof.
  intros Hnone Hout.
  destruct center as [|z|f|l]; [done|done|done|].
  rewrite rotate_crop_tuple.
  destruct (check_center (VTuple l) (Z.of_nat (width img)) (height img))
    as [c|e] eqn:Hc.
  - apply check_center_tuple in Hc as (c0 & c1 & -> & _ & Hc0 & Hc1).
    by destruct (Hout c0 c1).
  - apply check_center_error in Hc as ->. done.
Qed.

Lemma rotate_crop_center_checked_witness :
  rotate_crop (B := Toy.backend) wide_2x3 0 (VTuple [4; 1]) = Raise AssertionError /\
  exists out, rotate_crop (B := Toy.backend) wide_2x3 0 (VTuple [3; 2]) = Ok out.
Proof.
  split.
  - apply (rotate_crop_center_checked (B := Toy.backend) wide_2x3 0 (VTuple [4; 1]));
      [discriminate|].
    intros c0 c1 [= <- <-]. unfold height; simpl. lia.
  - eexists. reflexivity.
Defined.

(** ** draw_text with wrapping *)

Lemma py_split_no_sep (sep : ascii) (s : string) :
  Forall (fun c => c <> sep) (list_ascii_of_string s) -> py_split sep s = [s].
Proof.
  induction s as [|c rest IH]; simpl; [done|].
  intros Hall. apply Forall_cons_1 in Hall as [Hc Hrest].
  destruct (Ascii.eqb_spec c sep); [done|]. by rewrite IH.
Qed.

(** X24: with wrapping on, a position that is a tuple or a list is not
    used: any two of them give the same result, the text being placed from
    the measured text size and the buffer's shape alone.  A position that
    cannot be iterated raises [TypeError], with or without wrapping. *)
Theorem draw_text_wrap_ignores_position `{B : Backend} (img : ndarray)
    (label : string) (position1 position2 : position_arg) (col : color_arg)
    (scale_factor : Q) (thickness font : Z) :
  draw_text_any img label (PosSequence position1) col scale_factor thickness font true
    = draw_text_any img label (PosSequence position2) col scale_factor thickness
        font true /\
  forall wrap_text,
    draw_text_any img label PosNotIterable col scale_factor thickness font wrap_text
      = Raise TypeError.
Proof. split; [reflexivity | intros wrap_text; reflexivity]. Qed.

(** X25: a label without a line break is drawn once, in the requested font
    and anti-aliased, at x = (width - text width) / 2 and
    y = (height + text height) / 2, both truncated toward zero. *)
Theorem draw_text_wrap_single_line `{B : Backend} (img : ndarray)
    (label : string) (position : position_arg) (c : color)
    (scale_factor : Q) (thickness font : Z) (tw th baseline : Z) :
  Forall (fun ch => ch <> "010"%char) (list_ascii_of_string label) ->
  getTextSize label font scale_factor thickness = Ok ((tw, th), baseline) ->
  draw_text img label position (ColorTuple c) scale_factor thickness font true
    = putText img label
        [Z.quot (Z.of_nat (width img) - tw) 2; Z.quot (height img + th) 2]
        font scale_factor c thickness (Some LINE_AA).
Proof.
  intros Hline Hsize. unfold draw_text; simpl.
  rewrite py_split_no_sep by exact Hline. simpl.
  rewrite Hsize; simpl. by rewrite Z.add_0_r.
Qed.

Lemma draw_text_wrap_single_line_witness :
  draw_text (B := Toy.backend) wide_2x3 "ok" (PosTuple [5; 5]) (ColorTuple [0; 0; 255])
    1%Q 1 3 true
  = putText (Backend := Toy.backend) wide_2x3 "ok" [Z.quot (3 - 0) 2; Z.quot (2 + 0) 2]
      3 1%Q [0; 0; 255] 1 (Some LINE_AA).
Proof.
  apply (draw_text_wrap_single_line (B := Toy.backend) wide_2x3 "ok"
           (PosTuple [5; 5]) [0; 0; 255] 1%Q 1 3 0 0 0); [|reflexivity].
  repeat constructor; discriminate.
Defined.

(** ** flip *)

Section FlipFacts.
Context `{F : FlipModes}.

Lemma flip_axis_involutive (img : ndarray) (axis : nat) :
  flip_axis (flip_axis img axis) axis = img.
Proof.
  destruct img as [rs w c], axis as [|[|axis]]; unfold flip_axis; simpl; f_equal.
  - apply reverse_involutive.
  - rewrite map_map. erewrite map_ext; [apply map_id|].
    intros r. apply reverse_involutive.
  - rewrite map_map. erewrite map_ext; [apply map_id|].
    intros r. simpl. rewrite map_map. erewrite map_ext; [apply map_id|].
    intros px. apply reverse_involutive.
Qed.

Lemma flip_rows_columns_commute (img : ndarray) :
  flip_axis (flip_axis img 0) 1 = flip_axis (flip_axis img 1) 0.
Proof.
  unfold flip_axis; simpl. f_equal.
  change (map reverse ?l) with (reverse <$> l). by rewrite fmap_reverse.
Qed.

Lemma flip_axes (img : ndarray) (mode : flip_mode) (out : ndarray) :
  flip img mode = Ok out ->
  out = numpy_flip img [0%nat] \/ out = numpy_flip img [1%nat] \/
  out = numpy_flip img [0%nat; 1%nat].
Proof.
  unfold flip.
  destruct (decide (mode = FLIP_VERTICAL)); simpl; [intros [= <-]; by left|].
  destruct (decide (mode = FLIP_HORIZONTAL)); simpl;
    [intros [= <-]; right; by left|].
  destruct (decide (mode = FLIP_BOTH)); simpl; [intros [= <-]; right; by right|done].
Qed.

Lemma flip_same_mode (img out : ndarray) (mode : flip_mode) :
  flip img mode = Ok out ->
  exists axes, out = numpy_flip img axes /\ flip out mode = Ok (numpy_flip out axes) /\
               (axes = [0%nat] \/ axes = [1%nat] \/ axes = [0%nat; 1%nat]).
Proof.
  unfold flip.
  destruct (decide (mode = FLIP_VERTICAL)); simpl;
    [intros [= <-]; exists [0%nat]; eauto|].
  destruct (decide (mode = FLIP_HORIZONTAL)); simpl;
    [intros [= <-]; exists [1%nat]; eauto|].
  destruct (decide (mode = FLIP_BOTH)); simpl;
    [intros [= <-]; exists [0%nat; 1%nat]; eauto 6|done].
Qed.

Lemma flip_axis_wf (img : ndarray) (axis : nat) :
  wf_ndarray img -> wf_ndarray (flip_axis img axis).
Proof.
  unfold wf_ndarray. intros Hwf.
  destruct axis as [|[|axis]]; simpl.
  - by apply Forall_reverse.
  - apply Forall_map. eapply Forall_impl; [exact Hwf|].
    intros r [Hlen Hpx]; simpl. rewrite length_reverse. split; [done|].
    by apply Forall_reverse.
  - apply Forall_map. eapply Forall_impl; [exact Hwf|].
    intros r [Hlen Hpx]; simpl. rewrite length_map. split; [done|].
    apply Forall_map. eapply Forall_impl; [exact Hpx|].
    intros px Hp; simpl. by rewrite length_reverse.
Qed.

Lemma flip_axis_shape (img : ndarray) (axis : nat) :
  shape (flip_axis img axis) = shape img.
Proof.
  destruct axis as [|[|axis]]; unfold shape; simpl;
    by rewrite ?length_reverse, ?length_map.
Qed.

End FlipFacts.

(** X26: flipping twice in the same mode gives the buffer back. *)
Theorem flip_involution `{F : FlipModes} (img out : ndarray) (mode : flip_mode) :
  flip img mode = Ok out -> flip out mode = Ok img.
Proof.
  intros Hflip.
  destruct (flip_same_mode img out mode Hflip) as (axes & -> & -> & Hax).
  f_equal. unfold numpy_flip.
  destruct Hax as [-> | [-> | ->]]; cbn [foldl];
    rewrite ?flip_axis_involutive; try done.
  rewrite (flip_rows_columns_commute (flip_axis (flip_axis img 0) 1)).
  by rewrite !flip_axis_involutive.
Qed.

Lemma flip_involution_witness :
  flip (F := Toy.flip_modes) tall_3x2 Toy.FlipHV
    = Ok {| rows := [ [[21]; [20]]; [[11]; [10]]; [[1]; [0]] ];
            width := 2; channels := 1 |} /\
  flip (F := Toy.flip_modes)
    {| rows := [ [[21]; [20]]; [[11]; [10]]; [[1]; [0]] ]; width := 2; channels := 1 |}
    Toy.FlipHV = Ok tall_3x2.
Proof.
  split; [reflexivity|].
  apply (flip_involution (F := Toy.flip_modes) tall_3x2 _ Toy.FlipHV).
  reflexivity.
Defined.

(** X27: a flip keeps the shape of the buffer and keeps it well formed. *)
Theorem flip_keeps_shape `{F : FlipModes} (img out : ndarray) (mode : flip_mode) :
  flip img mode = Ok out ->
  shape out = shape img /\ (wf_ndarray img -> wf_ndarray out).
Proof.
  intros Hflip.
  apply flip_axes in Hflip as [-> | [-> | ->]]; unfold numpy_flip; cbn [foldl];
    rewrite ?flip_axis_shape; (split; [done|]); intros Hwf;
    repeat apply flip_axis_wf; exact Hwf.
Qed.

Lemma flip_keeps_shape_witness :
  exists out, flip (F := Toy.flip_modes) tall_3x2 Toy.FlipH = Ok out /\
              shape out = shape tall_3x2.
Proof.
  eexists. split; [reflexivity|].
  apply (flip_keeps_shape (F := Toy.flip_modes) tall_3x2 _ Toy.FlipH). reflexivity.
Defined.

(** X28: when the three mode constants are distinct, flipping vertically
    and then horizontally, or horizontally and then vertically, is the
    flip in both directions. *)
Theorem flip_both_composes `{F : FlipModes} (img : ndarray) :
  FLIP_HORIZONTAL <> FLIP_VERTICAL -> FLIP_BOTH <> FLIP_VERTICAL ->
  FLIP_BOTH <> FLIP_HORIZONTAL ->
  (flip img FLIP_VERTICAL ≫= fun v => flip v FLIP_HORIZONTAL) = flip img FLIP_BOTH /\
  (flip img FLIP_HORIZONTAL ≫= fun h => flip h FLIP_VERTICAL) = flip img FLIP_BOTH.
Proof.
  intros Hhv Hbv Hbh.
  assert (Hv : forall i, flip i FLIP_VERTICAL = Ok (numpy_flip i [0%nat])).
  { intros i. unfold flip. repeat case_decide; done. }
  assert (Hh : forall i, flip i FLIP_HORIZONTAL = Ok (numpy_flip i [1%nat])).
  { intros i. unfold flip. repeat case_decide; done. }
  assert (Hb : flip img FLIP_BOTH = Ok (numpy_flip img [0%nat; 1%nat])).
  { unfold flip. repeat case_decide; done. }
  rewrite Hb, !Hv, !Hh; simpl. rewrite Hv, Hh. split; [done|].
  f_equal. unfold numpy_flip; cbn [foldl]. symmetry.
  apply flip_rows_columns_commute.
Qed.

Lemma flip_both_composes_witness :
  (flip (F := Toy.flip_modes) tall_3x2 Toy.FlipV ≫= fun v => flip v Toy.FlipH)
    = flip (F := Toy.flip_modes) tall_3x2 Toy.FlipHV.
Proof.
  apply (proj1 (flip_both_composes (F := Toy.flip_modes) tall_3x2
                  ltac:(discriminate) ltac:(discriminate) ltac:(discriminate))).
Defined.

(** X29: [flip] raises [ValueError] exactly for the modes other than the
    three constants, whatever the buffer. *)
Theorem flip_error_iff `{F : FlipModes} (img : ndarray) (mode : flip_mode) :
  flip img mode = Raise ValueError <->
  mode <> FLIP_VERTICAL /\ mode <> FLIP_HORIZONTAL /\ mode <> FLIP_BOTH.
Proof.
  unfold flip.
  repeat case_decide; simpl; split; try done; by intros (? & ? & ?).
Qed.
